(** * qa-learn: question lifecycle, schema migration and daily ledger

    A shallow embedding of the repository [services/firestore.ts], of the
    answer handler of [App.tsx], of the answer forms of the question card
    (the component [App.tsx] imports from [components/QuestionCard]), of the
    client and handler of answer validation, and of the generate-question
    handler that follows the health check in [api/health.ts], with the
    properties of the specification stated and proved over it. *)

From Stdlib Require Import ZArith String Ascii List Bool Lia Sorted.
From stdpp Require Import base option strings pretty gmap list.

Local Open Scope string_scope.
Local Open Scope list_scope.

(** ** Optional properties

    A property of an object handed to the repository is either not an own
    key, an own key holding [undefined], or an own key holding a value.
    Documents read from the store never show the second state, so a stored
    optional property is an [option]; a [Partial<T>] argument built by a
    caller can, and [removeUndefined] exists to erase it. *)

Inductive field (A : Type) : Type :=
  | Absent
  | Undefined
  | Present (a : A).
Arguments Absent {A}.
Arguments Undefined {A}.
Arguments Present {A} a.

(** [value !== undefined] of [removeUndefined], one key at a time. *)
Definition keepDefined {A} (f : field A) : option A :=
  match f with
  | Present a => Some a
  | Absent | Undefined => None
  end.

(** [{ ...a, ...b }], one key at a time, for a cleaned [b]. *)
Definition over {A} (a : A) (b : option A) : A :=
  match b with
  | Some v => v
  | None => a
  end.

(** Truthiness of an optional string: [undefined] and [""] are falsy.  The
    result carries the string when it is truthy. *)
Definition truthy (f : option string) : option string :=
  match f with
  | Some s => if String.eqb s "" then None else Some s
  | None => None
  end.

(** [x ?? d] *)
Definition nullish {A} (f : option A) (d : A) : A :=
  match f with
  | Some a => a
  | None => d
  end.

(** [x || d] on optional strings *)
Definition orElse (f : option string) (d : string) : string :=
  match truthy f with
  | Some s => s
  | None => d
  end.

(** ** types.ts *)

Module Answer.
Record t := mk {
  answer : string;
  isCorrect : bool;
  mistakes : string;
  explanation : string;
  answeredAt : string }.
End Answer.

Inductive Status := StatusNone | StatusAsked | StatusAnswered.

Definition Status_eqb (a b : Status) : bool :=
  match a, b with
  | StatusNone, StatusNone | StatusAsked, StatusAsked
  | StatusAnswered, StatusAnswered => true
  | _, _ => false
  end.

(** A stored [answers] value that is not an array.  Only the non-iterable
    scalars are listed: they are what [Array.isArray] rejects and what
    [[...x]] refuses to spread. *)
Inductive NonArray := JNull | JBool (b : bool) | JNum (n : Z).

Definition NonArray_truthy (v : NonArray) : bool :=
  match v with
  | JNull => false
  | JBool b => b
  | JNum n => negb (Z.eqb n 0)
  end.

Inductive AnswersVal :=
  | Arr (l : list Answer.t)
  | NotArr (v : NonArray).

(** The union [Question | QuestionV1] as one stored object: the required
    keys shared by both interfaces, [answers] of the current one and the
    optional keys of the legacy one.  [None] is a key that is not there. *)
Module Question.
Record t := mk {
  id : string;
  status : Status;
  question : string;
  answers : option AnswersVal;
  questionExplanation : option string;
  contextConversation : option string;
  askedAt : option string;
  (* keys of QuestionV1 only *)
  answer : option string;
  isCorrect : option bool;
  mistakes : option string;
  explanation : option string;
  answeredAt : option string }.

(** [Partial<Question>], with [F := field] as a caller writes it and
    [F := option] once [removeUndefined] has cleaned it. *)
Record partial (F : Type -> Type) := mkPartial {
  p_id : F string;
  p_status : F Status;
  p_question : F string;
  p_answers : F (list Answer.t);
  p_questionExplanation : F string;
  p_contextConversation : F string;
  p_askedAt : F string }.
Arguments mkPartial {F}.
Arguments p_id {F}.
Arguments p_status {F}.
Arguments p_question {F}.
Arguments p_answers {F}.
Arguments p_questionExplanation {F}.
Arguments p_contextConversation {F}.
Arguments p_askedAt {F}.

(** The update object with no own key. *)
Definition noUpdates : partial field :=
  mkPartial Absent Absent Absent Absent Absent Absent Absent.

(** [q.id === s] *)
Definition idIs (s : string) (q : t) : bool := String.eqb (id q) s.

(** [{ ...q, ...cleanedUpdates }] *)
Definition spread (q : t) (u : partial option) : t :=
  {| id := over (id q) (p_id u);
     status := over (status q) (p_status u);
     question := over (question q) (p_question u);
     answers := over (answers q) (option_map (fun l => Some (Arr l)) (p_answers u));
     questionExplanation :=
       over (questionExplanation q) (option_map Some (p_questionExplanation u));
     contextConversation :=
       over (contextConversation q) (option_map Some (p_contextConversation u));
     askedAt := over (askedAt q) (option_map Some (p_askedAt u));
     answer := answer q;
     isCorrect := isCorrect q;
     mistakes := mistakes q;
     explanation := explanation q;
     answeredAt := answeredAt q |}.
End Question.

Record DailyRecord := {
  askedQuestionIds : list string;
  answeredQuestionIds : list string }.

(** [dailyQuestions] is typed [any] on the raw document and guarded with
    [|| {}] by its readers: [None] stands for a missing or null mapping. *)
Record UserDocument := {
  questions : list Question.t;
  dailyQuestions : option (gmap string DailyRecord);
  level : string }.

(** [Partial<UserDocument>] *)
Module DocUpdates.
Record partial (F : Type -> Type) := mk {
  questions : F (list Question.t);
  dailyQuestions : F (gmap string DailyRecord);
  level : F string }.
Arguments mk {F}.
Arguments questions {F}.
Arguments dailyQuestions {F}.
Arguments level {F}.
End DocUpdates.

Record ValidationResponse := {
  correct : bool;
  mistakes : string;
  explanation : string }.

(** ** services/firestore.ts: removeUndefined *)

(** [removeUndefined<T>] is generic in the object type; each [Partial<T>]
    it is used at gives one instance. *)
Class RemoveUndefined (P : (Type -> Type) -> Type) :=
  removeUndefined : P field -> P option.

#[export] Instance removeUndefined_question : RemoveUndefined Question.partial :=
  fun obj =>
    {| Question.p_id := keepDefined (Question.p_id obj);
       Question.p_status := keepDefined (Question.p_status obj);
       Question.p_question := keepDefined (Question.p_question obj);
       Question.p_answers := keepDefined (Question.p_answers obj);
       Question.p_questionExplanation :=
         keepDefined (Question.p_questionExplanation obj);
       Question.p_contextConversation :=
         keepDefined (Question.p_contextConversation obj);
       Question.p_askedAt := keepDefined (Question.p_askedAt obj) |}.

#[export] Instance removeUndefined_document : RemoveUndefined DocUpdates.partial :=
  fun obj =>
    {| DocUpdates.questions := keepDefined (DocUpdates.questions obj);
       DocUpdates.dailyQuestions := keepDefined (DocUpdates.dailyQuestions obj);
       DocUpdates.level := keepDefined (DocUpdates.level obj) |}.

(** ** services/firestore.ts: schema migration *)

(** [!('answers' in q) || q.answers === undefined || !Array.isArray(q.answers)];
    the first two tests are the [None] of a stored object. *)
Definition isQuestionV1 (q : Question.t) : bool :=
  match Question.answers q with
  | None => true
  | Some (NotArr _) => true
  | Some (Arr _) => false
  end.

(** [if (old.k) migrated.k = old.k] *)
Definition copyIfTruthy (f : option string) : option string := truthy f.

(** The object literal [{ id, status, question, answers }] followed by the
    three conditional copies. *)
Definition migrated (oldQuestion : Question.t) (answers : list Answer.t)
  : Question.t :=
  {| Question.id := Question.id oldQuestion;
     Question.status := Question.status oldQuestion;
     Question.question := Question.question oldQuestion;
     Question.answers := Some (Arr answers);
     Question.questionExplanation :=
       copyIfTruthy (Question.questionExplanation oldQuestion);
     Question.contextConversation :=
       copyIfTruthy (Question.contextConversation oldQuestion);
     Question.askedAt := copyIfTruthy (Question.askedAt oldQuestion);
     Question.answer := None;
     Question.isCorrect := None;
     Question.mistakes := None;
     Question.explanation := None;
     Question.answeredAt := None |}.

Definition migrateQuestion (question : Question.t) : Question.t :=
  if negb (isQuestionV1 question) then question
  else
    let oldQuestion := question in
    match truthy (Question.answer oldQuestion),
          truthy (Question.answeredAt oldQuestion) with
    | Some answer, Some answeredAt =>
        let migratedAnswer :=
          {| Answer.answer := answer;
             Answer.isCorrect := nullish (Question.isCorrect oldQuestion) false;
             Answer.mistakes := orElse (Question.mistakes oldQuestion) "none";
             Answer.explanation := orElse (Question.explanation oldQuestion) "";
             Answer.answeredAt := answeredAt |} in
        migrated oldQuestion [migratedAnswer]
    | _, _ => migrated oldQuestion []
    end.

Definition migrateUserDocument (doc : UserDocument) : UserDocument :=
  {| questions := map migrateQuestion (questions doc);
     dailyQuestions := dailyQuestions doc;
     level := level doc |}.

(** ** The store, the clock and the validation service

    The operations of the repository are asynchronous functions over the
    document store.  They are embedded in a state-and-exception monad over
    a [World]: the documents by user id, the trace of store writes and
    service calls, and the number of interactions with the outside (clock
    readings and service calls) so far. *)

Inductive Event :=
  | EvSetDoc (uid : string) (doc : UserDocument)
  | EvUpdateDoc (uid : string) (data : DocUpdates.partial option)
  | EvValidate (question answer : string).

Record World := {
  store : gmap string UserDocument;
  trace : list Event;
  tick : nat }.

Inductive Result (A : Type) : Type :=
  | Ok (a : A)
  | Throw (message : string).
Arguments Ok {A} a.
Arguments Throw {A} message.

Definition M (A : Type) : Type := World -> Result A * World.

#[export] Instance M_ret : MRet M := fun A a w => (Ok a, w).

#[export] Instance M_bind : MBind M := fun A B f m w =>
  match m w with
  | (Ok a, w') => f a w'
  | (Throw e, w') => (Throw e, w')
  end.

Definition throw {A} (message : string) : M A := fun w => (Throw message, w).

(** [try { body } catch (error) { handler }] *)
Definition tryCatch {A} (body : M A) (handler : string -> M A) : M A :=
  fun w =>
    match body w with
    | (Ok a, w') => (Ok a, w')
    | (Throw e, w') => handler e w'
    end.

(** Modelled from the spec: the store's [get(key) -> document|absent], which
    the source reaches through Firestore's [getDoc]; [None] is a snapshot
    whose [exists()] is false. *)
Definition getDoc (uid : string) : M (option UserDocument) :=
  fun w => (Ok (store w !! uid), w).

(** Modelled from the spec: the store's [set(key, document)], Firestore's
    [setDoc], which creates or overwrites the document. *)
Definition setDoc (uid : string) (doc : UserDocument) : M unit :=
  fun w =>
    (Ok tt, {| store := <[uid := doc]> (store w);
               trace := trace w ++ [EvSetDoc uid doc];
               tick := tick w |}).

(** The fields of [data] laid over a stored document. *)
Definition applyUpdates (doc : UserDocument) (data : DocUpdates.partial option)
  : UserDocument :=
  {| questions := over (questions doc) (DocUpdates.questions data);
     dailyQuestions :=
       over (dailyQuestions doc) (option_map Some (DocUpdates.dailyQuestions data));
     level := over (level doc) (DocUpdates.level data) |}.

(** Modelled from the spec: the store's [update(key, partialFields)],
    Firestore's [updateDoc], which merges the given fields into the stored
    document; it rejects when there is none.  The fields it is given have
    been cleaned, so it never sees an [undefined] value. *)
Definition updateDoc (uid : string) (data : DocUpdates.partial option) : M unit :=
  fun w =>
    match store w !! uid with
    | Some doc =>
        (Ok tt, {| store := <[uid := applyUpdates doc data]> (store w);
                   trace := trace w ++ [EvUpdateDoc uid data];
                   tick := tick w |})
    | None => (Throw "No document to update", w)
    end.

Definition questionsOnly (qs : list Question.t) : DocUpdates.partial field :=
  DocUpdates.mk (Present qs) Absent Absent.

Definition dailyQuestionsOnly (d : gmap string DailyRecord)
  : DocUpdates.partial field :=
  DocUpdates.mk Absent (Present d) Absent.

(** ** services/firestore.ts: the repository *)

Definition initialDoc : UserDocument :=
  {| questions := []; dailyQuestions := Some ∅; level := "a0" |}.

Definition getUserDocument (uid : string) : M (option UserDocument) :=
  docSnap ← getDoc uid;
  match docSnap with
  | Some rawDoc =>
      let migratedDoc := migrateUserDocument rawDoc in
      let needsUpdate := existsb isQuestionV1 (questions rawDoc) in
      (if needsUpdate
       then updateDoc uid (DocUpdates.mk (Some (questions migratedDoc)) None None)
       else mret tt) ;;
      mret (Some migratedDoc)
  | None =>
      setDoc uid initialDoc ;;
      mret (Some initialDoc)
  end.

Definition updateUserDocument (uid : string) (updates : DocUpdates.partial field)
  : M unit :=
  let cleanedUpdates := removeUndefined updates in
  updateDoc uid cleanedUpdates.

Definition addQuestion (uid : string) (question : Question.t) : M unit :=
  userDoc ← getUserDocument uid;
  match userDoc with
  | None => mret tt
  | Some userDoc =>
      let updatedQuestions := questions userDoc ++ [question] in
      updateUserDocument uid (questionsOnly updatedQuestions)
  end.

(** The merged object goes through [removeUndefined] a second time in the
    source; a stored question and a cleaned update hold no [undefined], so
    neither does their spread, and that pass has nothing to erase. *)
Definition updateQuestion (uid questionId : string)
    (updates : Question.partial field) : M unit :=
  userDoc ← getUserDocument uid;
  match userDoc with
  | None => mret tt
  | Some userDoc =>
      let cleanedUpdates := removeUndefined updates in
      let updatedQuestions :=
        map (fun q =>
               if Question.idIs questionId q
               then Question.spread q cleanedUpdates
               else q)
            (questions userDoc) in
      updateUserDocument uid (questionsOnly updatedQuestions)
  end.

(** [s.split('T')[0]] *)
Fixpoint beforeT (s : string) : string :=
  match s with
  | EmptyString => EmptyString
  | String c rest =>
      if Ascii.eqb c "T" then EmptyString else String c (beforeT rest)
  end.

(** [array.includes(x)] on strings *)
Definition includes (x : string) (l : list string) : bool :=
  existsb (String.eqb x) l.

Definition noQuestionsToday : DailyRecord :=
  {| askedQuestionIds := []; answeredQuestionIds := [] |}.

Section Clock.

(** [clock n] is what [new Date().toISOString()] yields when it is read as
    the [n]-th interaction with the outside. *)
Variable clock : nat -> string.

Definition newDateISO : M string :=
  fun w =>
    (Ok (clock (tick w)),
     {| store := store w; trace := trace w; tick := S (tick w) |}).

Definition getTodayDate : M string :=
  now ← newDateISO;
  mret (beforeT now).

Definition markQuestionAsked (uid questionId : string) : M unit :=
  userDoc ← getUserDocument uid;
  match userDoc with
  | None => mret tt
  | Some userDoc =>
      today ← getTodayDate;
      let dailyQuestions := default ∅ (dailyQuestions userDoc) in
      let todayQuestions := default noQuestionsToday (dailyQuestions !! today) in
      let todayQuestions :=
        if negb (includes questionId (askedQuestionIds todayQuestions))
        then {| askedQuestionIds := askedQuestionIds todayQuestions ++ [questionId];
                answeredQuestionIds := answeredQuestionIds todayQuestions |}
        else todayQuestions in
      updateUserDocument uid
        (dailyQuestionsOnly (<[today := todayQuestions]> dailyQuestions))
  end.

Definition markQuestionAnswered (uid questionId : string) : M unit :=
  userDoc ← getUserDocument uid;
  match userDoc with
  | None => mret tt
  | Some userDoc =>
      today ← getTodayDate;
      let dailyQuestions := default ∅ (dailyQuestions userDoc) in
      let todayQuestions := default noQuestionsToday (dailyQuestions !! today) in
      let todayQuestions :=
        if negb (includes questionId (answeredQuestionIds todayQuestions))
        then {| askedQuestionIds := askedQuestionIds todayQuestions;
                answeredQuestionIds :=
                  answeredQuestionIds todayQuestions ++ [questionId] |}
        else todayQuestions in
      updateUserDocument uid
        (dailyQuestionsOnly (<[today := todayQuestions]> dailyQuestions))
  end.

End Clock.

(** ** String helpers of the client and of the API handlers *)

(** A string of the model is the UTF-8 encoding of the JavaScript string.
    [String.prototype.trim] removes the code points of the productions
    WhiteSpace and LineTerminator; they are, with their encodings,

    - U+0009 to U+000D and U+0020: one byte, 9 to 13 and 32;
    - U+00A0 (no-break space): 194 160;
    - U+1680: 225 154 128;
    - U+2000 to U+200A, U+2028, U+2029, U+202F: 226 128 and a third byte
      from 128 to 138, 168, 169 or 175;
    - U+205F: 226 129 159;
    - U+3000: 227 128 128;
    - U+FEFF: 239 187 191. *)
Definition byteIs (c : ascii) (n : nat) : bool := Nat.eqb (nat_of_ascii c) n.

Definition isSpace1 (a : ascii) : bool :=
  let n := nat_of_ascii a in
  (Nat.leb 9 n && Nat.leb n 13) || Nat.eqb n 32.

Definition isSpace2 (a b : ascii) : bool := byteIs a 194 && byteIs b 160.

Definition isSpace3 (a b c : ascii) : bool :=
  let n := nat_of_ascii c in
  byteIs a 225 && byteIs b 154 && byteIs c 128
  || byteIs a 226 && byteIs b 128
     && ((Nat.leb 128 n && Nat.leb n 138)
         || Nat.eqb n 168 || Nat.eqb n 169 || Nat.eqb n 175)
  || byteIs a 226 && byteIs b 129 && byteIs c 159
  || byteIs a 227 && byteIs b 128 && byteIs c 128
  || byteIs a 239 && byteIs b 187 && byteIs c 191.

(** [found] applied to what follows the white space character that [s]
    begins with; [none] when it begins with no such character. *)
Definition afterSpace {A} (s : string) (found : string -> A) (none : A) : A :=
  match s with
  | String a r1 =>
      if isSpace1 a then found r1
      else match r1 with
           | String b r2 =>
               if isSpace2 a b then found r2
               else match r2 with
                    | String c r3 => if isSpace3 a b c then found r3 else none
                    | EmptyString => none
                    end
           | EmptyString => none
           end
  | EmptyString => none
  end.

Fixpoint trimStart (s : string) : string := afterSpace s trimStart s.

(** A string of white space characters only (the empty string included). *)
Fixpoint blank (s : string) : bool :=
  match s with
  | EmptyString => true
  | _ => afterSpace s blank false
  end.

(** What is white space up to the end of the string is removed. *)
Fixpoint trimEnd (s : string) : string :=
  match s with
  | EmptyString => EmptyString
  | String c rest => if blank s then EmptyString else String c (trimEnd rest)
  end.

Definition trim (s : string) : string := trimEnd (trimStart s).

Definition newline : string := String (ascii_of_nat 10) EmptyString.

(** [parts.join(sep)] *)
Fixpoint join (sep : string) (parts : list string) : string :=
  match parts with
  | [] => ""
  | [p] => p
  | p :: rest => p +:+ sep +:+ join sep rest
  end.

(** ** The validation client ([services/ai]) and its API handler *)

Section App.

Variable clock : nat -> string.

(** The parsed reply of the language model to a validation prompt sent as
    the [n]-th interaction; [None] when the request fails. *)
Variable validationService : nat -> string -> string -> option ValidationResponse.

(** The client's [validateAnswer] over the [/api/validate-answer] handler:
    the handler answers 400 to an empty question or answer and 500 to a
    failed model call, the client throws on every reply that is not ok,
    and both default an empty [mistakes] to ["none"]. *)
Definition validateAnswer (question answer : string) : M ValidationResponse :=
  fun w =>
    let w' := {| store := store w;
                 trace := trace w ++ [EvValidate question answer];
                 tick := S (tick w) |} in
    if String.eqb question "" || String.eqb answer ""
    then (Throw "Missing question or answer", w')
    else
      match validationService (tick w) question answer with
      | Some result =>
          (Ok {| correct := correct result;
                 mistakes := orElse (Some (mistakes result)) "none";
                 explanation := explanation result |}, w')
      | None => (Throw "Failed to validate answer", w')
      end.

(** ** App.tsx: handleAnswer *)

Record AppState := {
  user : option string;
  userDoc : option UserDocument;
  validatingQuestionId : option string }.

(** [[...(question.answers || [])]]: a falsy [answers] gives the empty
    array, an array is copied, a truthy scalar is not iterable. *)
Definition existingAnswersOf (question : Question.t) : M (list Answer.t) :=
  match Question.answers question with
  | None => mret []
  | Some (Arr l) => mret l
  | Some (NotArr v) =>
      if NonArray_truthy v then throw "existingAnswers is not iterable"
      else mret []
  end.

(** The [try] block of [handleAnswer]; the result is the document handed
    to [setUserDoc], if that line is reached. *)
Definition handleAnswer_try (uid : string) (userDoc : UserDocument)
    (questionId answerText : string) : M (option (option UserDocument)) :=
  match find (Question.idIs questionId) (questions userDoc) with
  | None => mret None
  | Some question =>
      validation ← validateAnswer (Question.question question) answerText;
      now ← newDateISO clock;
      let newAnswer :=
        {| Answer.answer := answerText;
           Answer.isCorrect := correct validation;
           Answer.mistakes := mistakes validation;
           Answer.explanation := explanation validation;
           Answer.answeredAt := now |} in
      existingAnswers ← existingAnswersOf question;
      let updatedAnswers := existingAnswers ++ [newAnswer] in
      updateQuestion uid questionId
        {| Question.p_id := Absent;
           Question.p_status :=
             Present (if Nat.eqb (length existingAnswers) 0
                      then StatusAnswered
                      else Question.status question);
           Question.p_question := Absent;
           Question.p_answers := Present updatedAnswers;
           Question.p_questionExplanation := Absent;
           Question.p_contextConversation := Absent;
           Question.p_askedAt := Absent |} ;;
      (if Nat.eqb (length existingAnswers) 0
       then markQuestionAnswered clock uid questionId
       else mret tt) ;;
      updatedDoc ← getUserDocument uid;
      mret (Some updatedDoc)
  end.

Definition handleAnswer (questionId answerText : string) (st : AppState)
  : M AppState :=
  match user st, userDoc st, truthy (validatingQuestionId st) with
  | Some uid, Some doc, None =>
      (* setValidatingQuestionId(questionId) *)
      loaded ← tryCatch (handleAnswer_try uid doc questionId answerText)
                        (fun _ => mret None);
      (* finally: setValidatingQuestionId(null) *)
      mret {| user := user st;
              userDoc := default (userDoc st) loaded;
              validatingQuestionId := None |}
  | _, _, _ => mret st
  end.

(** The [onAuthStateChanged] callback for a signed-in user. *)
Definition signedIn (uid : string) : M AppState :=
  doc ← getUserDocument uid;
  mret {| user := Some uid; userDoc := doc; validatingQuestionId := None |}.

(** ** The question card: the two answer forms *)

(** [!question.answers || question.answers.length === 0] *)
Definition showsAnswerForm (question : Question.t) : bool :=
  match Question.answers question with
  | None => true
  | Some (Arr l) => Nat.eqb (length l) 0
  | Some (NotArr v) => negb (NonArray_truthy v)
  end.

(** [question.answers && question.answers.length > 0
     && !question.answers.some(a => a.isCorrect)] *)
Definition showsTryAgainForm (question : Question.t) : bool :=
  match Question.answers question with
  | Some (Arr l) => Nat.ltb 0 (length l) && negb (existsb Answer.isCorrect l)
  | _ => false
  end.

(** [handleSubmit]: the call of [onAnswer] it makes, if any. *)
Definition handleSubmit (question : Question.t) (answer : string)
  : option (string * string) :=
  if negb (String.eqb (trim answer) "")
  then Some (Question.id question, trim answer)
  else None.

(** A submit event on the card of [question] with [answer] typed into
    its text area, [onAnswer] being [handleAnswer]: the event exists only
    when one of the two forms is rendered. *)
Definition submitOnCard (question : Question.t) (answer : string)
    (st : AppState) : M AppState :=
  if showsAnswerForm question || showsTryAgainForm question then
    match handleSubmit question answer with
    | Some (questionId, answerText) => handleAnswer questionId answerText st
    | None => mret st
    end
  else mret st.

End App.

(** ** api/health.ts: the generate-question handler *)

Module GenerateQuestion.

#[export] Instance Result_ret : MRet Result := fun A a => Ok a.

#[export] Instance Result_bind : MBind Result := fun A B f r =>
  match r with
  | Ok a => f a
  | Throw e => Throw e
  end.

Record Request := {
  method : string;
  answeredQuestions : option (list Question.t);
  currentLevel : option string }.

Inductive Body :=
  | QuestionBody (question : string)
  | ErrorBody (error : string).

Record Response := { statusCode : nat; json : Body }.

Section Handler.

(** [new Date(s).getTime()]; [None] is NaN, the time of an invalid date. *)
Variable getTime : string -> option Z.

(** [response.text] of the model for a prompt; [None] when the call
    rejects. *)
Variable generateContent : string -> option string.

(** [q.answers[q.answers.length - 1]] followed by a property access:
    a TypeError when there is no such element. *)
Definition lastAnswer (q : Question.t) : Result Answer.t :=
  match Question.answers q with
  | Some (Arr l) =>
      match last l with
      | Some a => Ok a
      | None => Throw "Cannot read properties of undefined"
      end
  | _ => Throw "Cannot read properties of undefined"
  end.

(** [last.answeredAt ? new Date(last.answeredAt).getTime() : 0] *)
Definition timeOf (q : Question.t) : Result (option Z) :=
  a ← lastAnswer q;
  mret (if String.eqb (Answer.answeredAt a) "" then Some 0%Z
        else getTime (Answer.answeredAt a)).

(** The comparator [(a, b) => aTime - bTime]; NaN absorbs. *)
Definition compareFn (a b : Question.t) : Result (option Z) :=
  aTime ← timeOf a;
  bTime ← timeOf b;
  mret (match aTime, bTime with
        | Some x, Some y => Some (x - y)%Z
        | _, _ => None
        end).

(** [v > 0] for a comparator result; NaN counts as zero. *)
Definition positive (v : option Z) : bool :=
  match v with
  | Some z => Z.ltb 0 z
  | None => false
  end.

(** [Array.prototype.sort] as a stable insertion sort: each element goes
    before the first one that compares greater.  Where every comparison is
    a number (each last answer has no timestamp or one that parses) the
    comparator is consistent and the language fixes the result, the stable
    sorted order, which is what this computes.  Where a comparison is NaN
    the language leaves the order to the implementation; what this
    computes then is one possible order, and no property below rests on
    it. *)
Fixpoint insertSorted (x : Question.t) (sorted : list Question.t)
  : Result (list Question.t) :=
  match sorted with
  | [] => Ok [x]
  | y :: rest =>
      v ← compareFn y x;
      if positive v then Ok (x :: y :: rest)
      else rest' ← insertSorted x rest; Ok (y :: rest')
  end.

Fixpoint sortFrom (sorted : list Question.t) (l : list Question.t)
  : Result (list Question.t) :=
  match l with
  | [] => Ok sorted
  | x :: rest => sorted' ← insertSorted x sorted; sortFrom sorted' rest
  end.

Definition sort (l : list Question.t) : Result (list Question.t) :=
  sortFrom [] l.

(** [.map(q => `Q: ${q.question}\nA: ${last.answer}`)] *)
Fixpoint renderAll (l : list Question.t) : Result (list string) :=
  match l with
  | [] => Ok []
  | q :: rest =>
      a ← lastAnswer q;
      lines ← renderAll rest;
      Ok (("Q: " +:+ Question.question q +:+ newline
           +:+ "A: " +:+ Answer.answer a) :: lines)
  end.

Definition conversationHistory (answeredQuestions : list Question.t)
  : Result string :=
  sorted ← sort (List.filter (fun q => Status_eqb (Question.status q) StatusAnswered)
                        answeredQuestions);
  rendered ← renderAll sorted;
  mret (join (newline +:+ newline) rendered).

Definition prompt (currentLevel history : string) : string :=
  "You are a Dutch language teacher. Assume the student starts at "
  +:+ currentLevel
  +:+ " level and does not know anything beyond that level."
  +:+ newline +:+ newline
  +:+ (if String.eqb history "" then ""
       else "Previous conversation:" +:+ newline +:+ history
            +:+ newline +:+ newline)
  +:+ newline +:+ newline
  +:+ "Ask them a question in Dutch. They must respond in Dutch. If their response was logical and without errors, ask a question on a teeny tiny bit more advanced topic. If it had errors, ask a question of the same topic/difficulty."
  +:+ newline +:+ newline
  +:+ "DO NOT ADD ANY TEXT EXCEPT QUESTIONS THEMSELVES. Only output the question, nothing else.".

(** The body of the [try] block. *)
Definition handler_try (req : Request) : Result Response :=
  match answeredQuestions req, truthy (currentLevel req) with
  | Some answeredQuestions, Some currentLevel =>
      history ← conversationHistory answeredQuestions;
      match truthy (generateContent (prompt currentLevel history)) with
      | Some text =>
          Ok {| statusCode := 200; json := QuestionBody (trim text) |}
      | None => Throw "No response text from AI"
      end
  | _, _ =>
      Ok {| statusCode := 400; json := ErrorBody "Missing required fields" |}
  end.

Definition handler (req : Request) : Response :=
  if negb (String.eqb (method req) "POST")
  then {| statusCode := 405; json := ErrorBody "Method not allowed" |}
  else
    match handler_try req with
    | Ok res => res
    | Throw _ =>
        {| statusCode := 500; json := ErrorBody "Failed to generate question" |}
    end.

(** The sort key of a question: the time of its last answer, zero when
    that answer has no timestamp. *)
Definition timed (q : Question.t) (z : Z) : Prop :=
  timeOf q = Ok (Some z).

Definition chronological (l : list Question.t) : Prop :=
  StronglySorted
    (fun a b => forall x y, timed a x -> timed b y -> (x <= y)%Z) l.

End Handler.

End GenerateQuestion.

(** * Vocabulary of the properties *)

Definition current (q : Question.t) : Prop := isQuestionV1 q = false.

(** What a read of [uid] returns in world [w], and the world it leaves. *)
Definition loaded (uid : string) (w : World) : UserDocument :=
  match store w !! uid with
  | Some rawDoc => migrateUserDocument rawDoc
  | None => initialDoc
  end.

Definition afterLoad (uid : string) (w : World) : World :=
  match store w !! uid with
  | Some rawDoc =>
      if existsb isQuestionV1 (questions rawDoc)
      then {| store := <[uid := migrateUserDocument rawDoc]> (store w);
              trace := trace w ++
                [EvUpdateDoc uid
                   (DocUpdates.mk (Some (questions (migrateUserDocument rawDoc)))
                                  None None)];
              tick := tick w |}
      else w
  | None =>
      {| store := <[uid := initialDoc]> (store w);
         trace := trace w ++ [EvSetDoc uid initialDoc];
         tick := tick w |}
  end.

(** The world after [updateDoc uid data] on a stored [doc]. *)
Definition written (uid : string) (doc : UserDocument)
    (data : DocUpdates.partial option) (w : World) : World :=
  {| store := <[uid := applyUpdates doc data]> (store w);
     trace := trace w ++ [EvUpdateDoc uid data];
     tick := tick w |}.

(** The world after one reading of the clock. *)
Definition ticked (w : World) : World :=
  {| store := store w; trace := trace w; tick := S (tick w) |}.

(** [push] guarded by [includes]: the id goes to the end of the list unless
    it is already a member. *)
Definition pushNew (questionId : string) (ids : list string) : list string :=
  if includes questionId ids then ids else ids ++ [questionId].

(** Today's record of a loaded document and the mapping it lives in. *)
Definition ledgerOf (doc : UserDocument) : gmap string DailyRecord :=
  default ∅ (dailyQuestions doc).

Definition recordOf (doc : UserDocument) (today : string) : DailyRecord :=
  default noQuestionsToday (ledgerOf doc !! today).

(** The keys of [updates] that hold [undefined] leave the stored value of
    the merged question as it was. *)
Definition undefinedKeysKept (updates : Question.partial field)
    (q merged : Question.t) : Prop :=
  (Question.p_id updates = Undefined -> Question.id merged = Question.id q) /\
  (Question.p_status updates = Undefined ->
     Question.status merged = Question.status q) /\
  (Question.p_question updates = Undefined ->
     Question.question merged = Question.question q) /\
  (Question.p_answers updates = Undefined ->
     Question.answers merged = Question.answers q) /\
  (Question.p_questionExplanation updates = Undefined ->
     Question.questionExplanation merged = Question.questionExplanation q) /\
  (Question.p_contextConversation updates = Undefined ->
     Question.contextConversation merged = Question.contextConversation q) /\
  (Question.p_askedAt updates = Undefined ->
     Question.askedAt merged = Question.askedAt q).

(** The no-duplicates invariant of the per-date id lists. *)
Definition ledgerNoDup (ledger : gmap string DailyRecord) : Prop :=
  forall date record,
    ledger !! date = Some record ->
    NoDup (askedQuestionIds record) /\ NoDup (answeredQuestionIds record).

(** The update [handleAnswer] hands to [updateQuestion]. *)
Definition answerUpdate (question : Question.t) (existingAnswers : list Answer.t)
    (newAnswer : Answer.t) : Question.partial field :=
  {| Question.p_id := Absent;
     Question.p_status :=
       Present (if Nat.eqb (length existingAnswers) 0
                then StatusAnswered
                else Question.status question);
     Question.p_question := Absent;
     Question.p_answers := Present (existingAnswers ++ [newAnswer]);
     Question.p_questionExplanation := Absent;
     Question.p_contextConversation := Absent;
     Question.p_askedAt := Absent |}.

(** The cached document is the stored one, and it is current-shaped: the
    state [signedIn] and every completed handler leave behind. *)
Definition inSync (uid : string) (st : AppState) (w : World) : Prop :=
  user st = Some uid /\
  exists doc,
    userDoc st = Some doc /\ store w !! uid = Some doc /\
    Forall current (questions doc).

(** * Example data *)

(** The legacy entry of the specification's losslessness example. *)
Definition legacyGoed : Question.t :=
  {| Question.id := "1700000000000";
     Question.status := StatusAnswered;
     Question.question := "Hoe gaat het?";
     Question.answers := None;
     Question.questionExplanation := None;
     Question.contextConversation := None;
     Question.askedAt := None;
     Question.answer := Some "goed";
     Question.isCorrect := Some true;
     Question.mistakes := None;
     Question.explanation := None;
     Question.answeredAt := Some "2024-05-01T10:00:00.000Z" |}.

(** A legacy entry whose [answer] key is there and holds the empty string. *)
Definition legacyEmptyAnswer : Question.t :=
  {| Question.id := "1700000000001";
     Question.status := StatusAnswered;
     Question.question := "Hoe gaat het?";
     Question.answers := None;
     Question.questionExplanation := None;
     Question.contextConversation := None;
     Question.askedAt := None;
     Question.answer := Some "";
     Question.isCorrect := Some false;
     Question.mistakes := Some "geen antwoord";
     Question.explanation := Some "Het antwoord is leeg.";
     Question.answeredAt := Some "2024-05-01T10:00:00.000Z" |}.

(** A stored document with one legacy entry and one current entry. *)
Definition mixedDoc : UserDocument :=
  {| questions := [legacyGoed; migrateQuestion legacyEmptyAnswer];
     dailyQuestions := Some ∅;
     level := "a0" |}.

Definition worldWith (uid : string) (doc : UserDocument) : World :=
  {| store := {[ uid := doc ]}; trace := []; tick := 0 |}.

Definition emptyWorld : World := {| store := ∅; trace := []; tick := 0 |}.

Definition correctAnswer : Answer.t :=
  {| Answer.answer := "Het gaat goed";
     Answer.isCorrect := true;
     Answer.mistakes := "none";
     Answer.explanation := "Correct.";
     Answer.answeredAt := "2024-05-01T10:00:00.000Z" |}.

(** A current question that already holds a correct answer. *)
Definition lockedQuestion : Question.t :=
  {| Question.id := "1700000000002";
     Question.status := StatusAnswered;
     Question.question := "Hoe gaat het?";
     Question.answers := Some (Arr [correctAnswer]);
     Question.questionExplanation := None;
     Question.contextConversation := None;
     Question.askedAt := Some "2024-05-01T09:59:00.000Z";
     Question.answer := None;
     Question.isCorrect := None;
     Question.mistakes := None;
     Question.explanation := None;
     Question.answeredAt := None |}.

Definition lockedDoc : UserDocument :=
  {| questions := [lockedQuestion]; dailyQuestions := Some ∅; level := "a0" |}.

Definition lockedState : AppState :=
  {| user := Some "u1"; userDoc := Some lockedDoc; validatingQuestionId := None |}.

Definition noon (_ : nat) : string := "2024-05-02T12:00:00.000Z".

Definition strictService (_ : nat) (_ _ : string) : option ValidationResponse :=
  Some {| correct := false; mistakes := "woordvolgorde"; explanation := "Nee." |}.

(** The request the client sends once the migrated [legacyEmptyAnswer]
    (status answered, no answers) is among the user's questions. *)
Definition failingRequest : GenerateQuestion.Request :=
  {| GenerateQuestion.method := "POST";
     GenerateQuestion.answeredQuestions := Some [lockedQuestion; migrateQuestion legacyEmptyAnswer];
     GenerateQuestion.currentLevel := Some "a0" |}.

Definition askedQuestion : Question.t :=
  {| Question.id := "1700000000003";
     Question.status := StatusAsked;
     Question.question := "Waar ga je naartoe?";
     Question.answers := Some (Arr []);
     Question.questionExplanation := None;
     Question.contextConversation := Some "A: Hoi! B: Hallo!";
     Question.askedAt := Some "2024-05-02T11:59:00.000Z";
     Question.answer := None;
     Question.isCorrect := None;
     Question.mistakes := None;
     Question.explanation := None;
     Question.answeredAt := None |}.

Definition askedDoc : UserDocument :=
  {| questions := [lockedQuestion; askedQuestion];
     dailyQuestions :=
       Some {[ "2024-05-02" :=
                 {| askedQuestionIds := ["1700000000003"];
                    answeredQuestionIds := [] |} ]};
     level := "a0" |}.

Definition askedState : AppState :=
  {| user := Some "u1"; userDoc := Some askedDoc; validatingQuestionId := None |}.

Definition lenientService (_ : nat) (_ _ : string) : option ValidationResponse :=
  Some {| correct := true; mistakes := ""; explanation := "Prima." |}.

(** * The other handlers of the application *)

(** ** The generate-context and explain-question handlers

    The two handlers share their shape: a method check, a check of the two
    body fields, a prompt, one call of the model, the trimmed text. *)

Definition doubleQuote : string := String (ascii_of_nat 34) EmptyString.

(** [response.ok]: a status in the range 200-299. *)
Definition statusOk (statusCode : nat) : bool :=
  Nat.leb 200 statusCode && Nat.leb statusCode 299.

Module TextHandler.

Record Request := {
  method : string;
  question : option string;
  level : option string }.

Inductive Body :=
  | TextBody (text : string)
  | ErrorBody (error : string).

Record Response := { statusCode : nat; json : Body }.

End TextHandler.

Module GenerateContext.
Import TextHandler.

Definition prompt (question level : string) : string :=
  "You are a Dutch language teacher. Generate a short conversation (3-5 exchanges) in Dutch that leads up to asking this question: "
  +:+ doubleQuote +:+ question +:+ doubleQuote
  +:+ newline +:+ newline
  +:+ "The conversation should:" +:+ newline
  +:+ "- Be appropriate for " +:+ level +:+ " level" +:+ newline
  +:+ "- Be natural and realistic" +:+ newline
  +:+ "- End with the question being asked" +:+ newline
  +:+ "- NOT include the answer to the question"
  +:+ newline +:+ newline
  +:+ "Format the conversation as following markdown:" +:+ newline
  +:+ "Person A: [dialogue]" +:+ newline +:+ newline
  +:+ "Person B: [dialogue]" +:+ newline +:+ newline
  +:+ "Person A: [dialogue]" +:+ newline
  +:+ "etc."
  +:+ newline +:+ newline
  +:+ "Make it feel like a natural conversation that would lead to asking this question.".

Definition handler (generateContent : string -> option string) (req : Request)
  : Response :=
  if negb (String.eqb (method req) "POST")
  then {| statusCode := 405; json := ErrorBody "Method not allowed" |}
  else
    match truthy (question req), truthy (level req) with
    | Some question, Some level =>
        match truthy (generateContent (prompt question level)) with
        | Some text => {| statusCode := 200; json := TextBody (trim text) |}
        | None =>
            {| statusCode := 500; json := ErrorBody "Failed to generate context" |}
        end
    | _, _ =>
        {| statusCode := 400; json := ErrorBody "Missing question or level" |}
    end.

End GenerateContext.

Module ExplainQuestion.
Import TextHandler.

Definition prompt (question level : string) : string :=
  "Explain this Dutch language question to a person with level " +:+ level
  +:+ ". If possible, do it in Dutch. If their level is too low to explain this question in Dutch, use English instead."
  +:+ newline +:+ newline
  +:+ "Question: " +:+ question
  +:+ newline +:+ newline
  +:+ "Provide a clear explanation that helps them understand what is being asked.".

Definition handler (generateContent : string -> option string) (req : Request)
  : Response :=
  if negb (String.eqb (method req) "POST")
  then {| statusCode := 405; json := ErrorBody "Method not allowed" |}
  else
    match truthy (question req), truthy (level req) with
    | Some question, Some level =>
        match truthy (generateContent (prompt question level)) with
        | Some text => {| statusCode := 200; json := TextBody (trim text) |}
        | None =>
            {| statusCode := 500; json := ErrorBody "Failed to explain question" |}
        end
    | _, _ =>
        {| statusCode := 400; json := ErrorBody "Missing question or level" |}
    end.

End ExplainQuestion.

(** ** The clients of the text services ([services/ai]) and the handlers of
    [App.tsx] that use them *)

(** The state of [App] that the handlers read and set: the part
    [handleAnswer] uses and the three other in-flight markers. *)
Record AppFlags := {
  base : AppState;
  generatingQuestion : bool;
  explainingQuestionId : option string;
  generatingContextId : option string }.

Section Lifecycle.

Variable clock : nat -> string.

(** [Date.now()] read as the [n]-th interaction with the outside. *)
Variable dateNow : nat -> N.

Variable getTime : string -> option Z.

(** [response.text] of the model for a prompt sent as the [n]-th
    interaction; [None] when the call rejects. *)
Variable generateContent : nat -> string -> option string.

(** [errorMessage = error.error || errorMessage] *)
Definition errorOr (error fallback : string) : string :=
  orElse (Some error) fallback.

Definition generateQuestion (answeredQuestions : list Question.t)
    (currentLevel : string) : M string :=
  fun w =>
    let response :=
      GenerateQuestion.handler getTime (generateContent (tick w))
        {| GenerateQuestion.method := "POST";
           GenerateQuestion.answeredQuestions := Some answeredQuestions;
           GenerateQuestion.currentLevel := Some currentLevel |} in
    if statusOk (GenerateQuestion.statusCode response) then
      match GenerateQuestion.json response with
      | GenerateQuestion.QuestionBody question => (Ok question, ticked w)
      | GenerateQuestion.ErrorBody _ =>
          (* no reply of the handler is ok without a question *)
          (Throw "The reply holds no question", ticked w)
      end
    else
      match GenerateQuestion.json response with
      | GenerateQuestion.ErrorBody error =>
          (Throw (errorOr error "Failed to generate question"), ticked w)
      | GenerateQuestion.QuestionBody _ =>
          (Throw "Failed to generate question", ticked w)
      end.

Definition generateContext (question level : string) : M string :=
  fun w =>
    let response :=
      GenerateContext.handler (generateContent (tick w))
        {| TextHandler.method := "POST";
           TextHandler.question := Some question;
           TextHandler.level := Some level |} in
    if statusOk (TextHandler.statusCode response) then
      match TextHandler.json response with
      | TextHandler.TextBody conversation => (Ok conversation, ticked w)
      | TextHandler.ErrorBody _ =>
          (* no reply of the handler is ok without a conversation *)
          (Throw "The reply holds no conversation", ticked w)
      end
    else
      match TextHandler.json response with
      | TextHandler.ErrorBody error =>
          (Throw (errorOr error "Failed to generate context"), ticked w)
      | TextHandler.TextBody _ =>
          (Throw "Failed to generate context", ticked w)
      end.

Definition explainQuestion (question level : string) : M string :=
  fun w =>
    let response :=
      ExplainQuestion.handler (generateContent (tick w))
        {| TextHandler.method := "POST";
           TextHandler.question := Some question;
           TextHandler.level := Some level |} in
    if statusOk (TextHandler.statusCode response) then
      match TextHandler.json response with
      | TextHandler.TextBody explanation => (Ok explanation, ticked w)
      | TextHandler.ErrorBody _ =>
          (* no reply of the handler is ok without an explanation *)
          (Throw "The reply holds no explanation", ticked w)
      end
    else
      match TextHandler.json response with
      | TextHandler.ErrorBody error =>
          (Throw (errorOr error "Failed to explain question"), ticked w)
      | TextHandler.TextBody _ =>
          (Throw "Failed to explain question", ticked w)
      end.

(** [Date.now().toString()] *)
Definition dateNowString : M string :=
  fun w => (Ok (pretty (dateNow (tick w))), ticked w).


Definition setUserDoc (doc : option UserDocument) (st : AppState) : AppState :=
  {| user := user st; userDoc := doc;
     validatingQuestionId := validatingQuestionId st |}.

Definition handleLevelChange (newLevel : string) (st : AppState) : M AppState :=
  match user st with
  | None => mret st
  | Some uid =>
      updateUserDocument uid (DocUpdates.mk Absent Absent (Present newLevel)) ;;
      updatedDoc ← getUserDocument uid;
      mret (setUserDoc updatedDoc st)
  end.

(** The [try] block of [handleNewQuestion]. *)
Definition handleNewQuestion_try (uid : string) (doc : UserDocument)
  : M (option (option UserDocument)) :=
  let answeredQuestions :=
    List.filter (fun q => Status_eqb (Question.status q) StatusAnswered)
                (questions doc) in
  questionText ← generateQuestion answeredQuestions (level doc);
  newId ← dateNowString;
  askedAt ← newDateISO clock;
  let newQuestion :=
    {| Question.id := newId;
       Question.status := StatusAsked;
       Question.question := questionText;
       Question.answers := Some (Arr []);
       Question.questionExplanation := None;
       Question.contextConversation := None;
       Question.askedAt := Some askedAt;
       Question.answer := None;
       Question.isCorrect := None;
       Question.mistakes := None;
       Question.explanation := None;
       Question.answeredAt := None |} in
  addQuestion uid newQuestion ;;
  markQuestionAsked clock uid (Question.id newQuestion) ;;
  updatedDoc ← getUserDocument uid;
  mret (Some updatedDoc).

Definition handleNewQuestion (s : AppFlags) : M AppFlags :=
  match user (base s), userDoc (base s), generatingQuestion s with
  | Some uid, Some doc, false =>
      (* setGeneratingQuestion(true) *)
      loaded ← tryCatch (handleNewQuestion_try uid doc) (fun _ => mret None);
      (* finally: setGeneratingQuestion(false) *)
      mret {| base := setUserDoc (default (userDoc (base s)) loaded) (base s);
              generatingQuestion := false;
              explainingQuestionId := explainingQuestionId s;
              generatingContextId := generatingContextId s |}
  | _, _, _ => mret s
  end.

(** The [try] block of [handleGenerateContext]. *)
Definition handleGenerateContext_try (uid : string) (doc : UserDocument)
    (questionId : string) : M (option (option UserDocument)) :=
  match find (Question.idIs questionId) (questions doc) with
  | None => mret None
  | Some question =>
      match truthy (Question.contextConversation question) with
      | Some _ => mret None
      | None =>
          contextConversation ←
            generateContext (Question.question question) (level doc);
          updateQuestion uid questionId
            {| Question.p_id := Absent;
               Question.p_status := Absent;
               Question.p_question := Absent;
               Question.p_answers := Absent;
               Question.p_questionExplanation := Absent;
               Question.p_contextConversation := Present contextConversation;
               Question.p_askedAt := Absent |} ;;
          updatedDoc ← getUserDocument uid;
          mret (Some updatedDoc)
      end
  end.

Definition handleGenerateContext (questionId : string) (s : AppFlags)
  : M AppFlags :=
  match user (base s), userDoc (base s), truthy (generatingContextId s) with
  | Some uid, Some doc, None =>
      (* setGeneratingContextId(questionId) *)
      loaded ← tryCatch (handleGenerateContext_try uid doc questionId)
                        (fun _ => mret None);
      (* finally: setGeneratingContextId(null) *)
      mret {| base := setUserDoc (default (userDoc (base s)) loaded) (base s);
              generatingQuestion := generatingQuestion s;
              explainingQuestionId := explainingQuestionId s;
              generatingContextId := None |}
  | _, _, _ => mret s
  end.

(** The [try] block of [handleExplain]. *)
Definition handleExplain_try (uid : string) (doc : UserDocument)
    (questionId : string) : M (option (option UserDocument)) :=
  match find (Question.idIs questionId) (questions doc) with
  | None => mret None
  | Some question =>
      match truthy (Question.questionExplanation question) with
      | Some _ => mret None
      | None =>
          questionExplanation ←
            explainQuestion (Question.question question) (level doc);
          updateQuestion uid questionId
            {| Question.p_id := Absent;
               Question.p_status := Absent;
               Question.p_question := Absent;
               Question.p_answers := Absent;
               Question.p_questionExplanation := Present questionExplanation;
               Question.p_contextConversation := Absent;
               Question.p_askedAt := Absent |} ;;
          updatedDoc ← getUserDocument uid;
          mret (Some updatedDoc)
      end
  end.

Definition handleExplain (questionId : string) (s : AppFlags) : M AppFlags :=
  match user (base s), userDoc (base s), truthy (explainingQuestionId s) with
  | Some uid, Some doc, None =>
      (* setExplainingQuestionId(questionId) *)
      loaded ← tryCatch (handleExplain_try uid doc questionId)
                        (fun _ => mret None);
      (* finally: setExplainingQuestionId(null) *)
      mret {| base := setUserDoc (default (userDoc (base s)) loaded) (base s);
              generatingQuestion := generatingQuestion s;
              explainingQuestionId := None;
              generatingContextId := generatingContextId s |}
  | _, _, _ => mret s
  end.

End Lifecycle.

(** ** The question card: clearing the text area *)

(** The effect keyed on [isValidating], [question.answers] and [answer]:
    the text the area holds after it has run. *)
Definition clearAnswerEffect (isValidating : bool) (question : Question.t)
    (answer : string) : string :=
  if negb isValidating then
    match Question.answers question with
    | Some (Arr l) =>
        match last l with
        | Some lastAnswer =>
            if Answer.isCorrect lastAnswer
               && String.eqb (trim answer) (Answer.answer lastAnswer)
            then "" else answer
        | None => answer
        end
    | _ => answer
    end
  else answer.

(** ** public/sw.js: the fetch and activate handlers of the service worker

    The cache storage holds the caches by name in their order of creation;
    a cache maps the URL of a GET request to the response stored for it.
    The handlers are taken at the point where their promises have settled:
    the [cache.put] that the fetch handler starts without waiting for it is
    part of the state the handler leaves. *)

Module ServiceWorker.

Definition CACHE_NAME : string := "dutch-learn-v1".

Record Request := { method : string; url : string }.

Record Response := { status : nat; type : string; body : string }.

Definition CacheStorage : Type := list (string * gmap string Response).

(** [haystack.includes(needle)] *)
Fixpoint includesText (needle haystack : string) : bool :=
  String.prefix needle haystack
  || match haystack with
     | EmptyString => false
     | String _ rest => includesText needle rest
     end.

(** [caches.match(request)]: the first cache, in order of creation, that
    holds the URL answers. *)
Fixpoint cachesMatch (caches : CacheStorage) (url : string) : option Response :=
  match caches with
  | [] => None
  | (_, cache) :: rest =>
      match cache !! url with
      | Some response => Some response
      | None => cachesMatch rest url
      end
  end.

(** [caches.open(name).then(cache => cache.put(request, response))]: the
    cache is created at the end of the storage when there is none of that
    name. *)
Fixpoint openAndPut (name url : string) (response : Response)
    (caches : CacheStorage) : CacheStorage :=
  match caches with
  | [] => [(name, {[ url := response ]})]
  | (n, cache) :: rest =>
      if String.eqb n name
      then (n, <[url := response]> cache) :: rest
      else (n, cache) :: openAndPut name url response rest
  end.

(** What the fetch event ends in: the worker does not call [respondWith]
    and the browser handles the request, or it responds; [None] is a
    promise that settles without a response. *)
Inductive Outcome :=
  | NotHandled
  | RespondWith (response : option Response).

Section Handlers.

(** [fetch(request)]: the response of the network, [None] when the promise
    rejects. *)
Variable network : string -> option Response.

(** The URL the string ['/index.html'] stands for in the worker's scope. *)
Variable indexUrl : string.

Definition onFetch (request : Request) (caches : CacheStorage)
  : Outcome * CacheStorage :=
  if negb (String.eqb (method request) "GET") then (NotHandled, caches)
  else if includesText "/api/" (url request) then (NotHandled, caches)
  else
    match cachesMatch caches (url request) with
    | Some response => (RespondWith (Some response), caches)
    | None =>
        match network (url request) with
        | Some response =>
            if negb (Nat.eqb (status response) 200)
               || negb (String.eqb (type response) "basic")
            then (RespondWith (Some response), caches)
            else (RespondWith (Some response),
                  openAndPut CACHE_NAME (url request) response caches)
        | None => (RespondWith (cachesMatch caches indexUrl), caches)
        end
    end.

(** The activate handler: every cache of another name is deleted. *)
Definition onActivate (caches : CacheStorage) : CacheStorage :=
  List.filter (fun entry => String.eqb (fst entry) CACHE_NAME) caches.

End Handlers.

(** No stored URL is one the worker refuses to handle. *)
Definition noApiStored (caches : CacheStorage) : Prop :=
  forall name cache url response,
    (name, cache) ∈ caches -> cache !! url = Some response ->
    includesText "/api/" url = false.

(** Every stored response is one the fetch handler would store. *)
Definition onlyGoodStored (caches : CacheStorage) : Prop :=
  forall name cache url response,
    (name, cache) ∈ caches -> cache !! url = Some response ->
    status response = 200 /\ type response = "basic".

End ServiceWorker.

(** ** Vocabulary of the further properties *)

(** What follows the white space character that [s] begins with, if it
    begins with one. *)
Definition dropSpace (s : string) : option string := afterSpace s Some None.

(** A string that does not begin with white space. *)
Definition startsClean (s : string) : Prop := dropSpace s = None.

(** The line the history holds for a question and its last answer. *)
Definition historyLine (q : Question.t) (a : Answer.t) : string :=
  "Q: " +:+ Question.question q +:+ newline +:+ "A: " +:+ Answer.answer a.

Definition isAnswered (q : Question.t) : bool :=
  Status_eqb (Question.status q) StatusAnswered.

(** A question with its [contextConversation] set and nothing else
    changed. *)
Definition withContext (conversation : string) (q : Question.t) : Question.t :=
  {| Question.id := Question.id q;
     Question.status := Question.status q;
     Question.question := Question.question q;
     Question.answers := Question.answers q;
     Question.questionExplanation := Question.questionExplanation q;
     Question.contextConversation := Some conversation;
     Question.askedAt := Question.askedAt q;
     Question.answer := Question.answer q;
     Question.isCorrect := Question.isCorrect q;
     Question.mistakes := Question.mistakes q;
     Question.explanation := Question.explanation q;
     Question.answeredAt := Question.answeredAt q |}.

(** A question with its [questionExplanation] set and nothing else
    changed. *)
Definition withExplanation (text : string) (q : Question.t) : Question.t :=
  {| Question.id := Question.id q;
     Question.status := Question.status q;
     Question.question := Question.question q;
     Question.answers := Question.answers q;
     Question.questionExplanation := Some text;
     Question.contextConversation := Question.contextConversation q;
     Question.askedAt := Question.askedAt q;
     Question.answer := Question.answer q;
     Question.isCorrect := Question.isCorrect q;
     Question.mistakes := Question.mistakes q;
     Question.explanation := Question.explanation q;
     Question.answeredAt := Question.answeredAt q |}.

(** The question [handleNewQuestion] builds. *)
Definition askedNow (newId questionText askedAt : string) : Question.t :=
  {| Question.id := newId;
     Question.status := StatusAsked;
     Question.question := questionText;
     Question.answers := Some (Arr []);
     Question.questionExplanation := None;
     Question.contextConversation := None;
     Question.askedAt := Some askedAt;
     Question.answer := None;
     Question.isCorrect := None;
     Question.mistakes := None;
     Question.explanation := None;
     Question.answeredAt := None |}.

(** The flags with the cached document replaced. *)
Definition withDoc (doc : UserDocument) (s : AppFlags) : AppFlags :=
  {| base := setUserDoc (Some doc) (base s);
     generatingQuestion := generatingQuestion s;
     explainingQuestionId := explainingQuestionId s;
     generatingContextId := generatingContextId s |}.

(** The state of [App] once [signedIn] has run, no handler running. *)
Definition idle (st : AppState) : AppFlags :=
  {| base := st;
     generatingQuestion := false;
     explainingQuestionId := None;
     generatingContextId := None |}.

(** ** More example data *)

Definition replyService (_ : nat) (_ : string) : option string :=
  Some " Wat doe je vandaag? ".

Definition blankService (_ : nat) (_ : string) : option string := Some "  ".

(** U+00A0, the no-break space, and U+3000, the ideographic space. *)
Definition noBreakSpace : string :=
  String (ascii_of_nat 194) (String (ascii_of_nat 160) EmptyString).

Definition ideographicSpace : string :=
  String (ascii_of_nat 227)
    (String (ascii_of_nat 128) (String (ascii_of_nat 128) EmptyString)).

(** A reply and a typed answer with white space of several kinds around
    them. *)
Definition paddedReply : string :=
  noBreakSpace +:+ " Wat doe je vandaag?" +:+ newline +:+ ideographicSpace.

Definition paddedService (_ : nat) (_ : string) : option string :=
  Some paddedReply.

Definition paddedAnswer : string :=
  ideographicSpace +:+ "Ik ga naar huis " +:+ noBreakSpace.

Definition spacesOnly : string :=
  " " +:+ noBreakSpace +:+ ideographicSpace +:+ newline.


Definition silentValidation (_ : nat) (_ _ : string) : option ValidationResponse :=
  None.

Definition epoch (n : nat) : N := 1700000000000 + N.of_nat n.

Definition zeroTime (_ : string) : option Z := Some 0%Z.

Definition signedOut : AppState :=
  {| user := None; userDoc := None; validatingQuestionId := None |}.

Definition askedFlags : AppFlags :=
  {| base := askedState;
     generatingQuestion := false;
     explainingQuestionId := None;
     generatingContextId := None |}.

Definition explainedDoc : UserDocument :=
  {| questions := [withExplanation "Hoe voel je je?" lockedQuestion];
     dailyQuestions := Some ∅;
     level := "a0" |}.

Definition explainedFlags : AppFlags :=
  {| base := {| user := Some "u1"; userDoc := Some explainedDoc;
                validatingQuestionId := None |};
     generatingQuestion := false;
     explainingQuestionId := None;
     generatingContextId := None |}.

Definition blockedDoc : UserDocument := migrateUserDocument mixedDoc.

Definition blockedFlags : AppFlags :=
  {| base := {| user := Some "u1"; userDoc := Some blockedDoc;
                validatingQuestionId := None |};
     generatingQuestion := false;
     explainingQuestionId := None;
     generatingContextId := None |}.


(** A page of the application, a stylesheet and an API call, as the
    service worker sees them. *)
Definition pageResponse : ServiceWorker.Response :=
  {| ServiceWorker.status := 200;
     ServiceWorker.type := "basic";
     ServiceWorker.body := "<html></html>" |}.

Definition styleResponse : ServiceWorker.Response :=
  {| ServiceWorker.status := 200;
     ServiceWorker.type := "basic";
     ServiceWorker.body := "body { margin: 0 }" |}.

Definition missingResponse : ServiceWorker.Response :=
  {| ServiceWorker.status := 404;
     ServiceWorker.type := "basic";
     ServiceWorker.body := "Not Found" |}.

Definition styleRequest : ServiceWorker.Request :=
  {| ServiceWorker.method := "GET"; ServiceWorker.url := "/assets/index.css" |}.

Definition apiRequest : ServiceWorker.Request :=
  {| ServiceWorker.method := "GET"; ServiceWorker.url := "/api/generate-question" |}.

Definition installedCaches : ServiceWorker.CacheStorage :=
  [(ServiceWorker.CACHE_NAME, {[ "/index.html" := pageResponse ]})].

Definition online (url : string) : option ServiceWorker.Response :=
  if String.eqb url "/assets/index.css" then Some styleResponse
  else Some missingResponse.

Definition notFound (url : string) : option ServiceWorker.Response :=
  Some missingResponse.

(** * Properties *)

(** ** Schema migration *)

Lemma migrateQuestion_current q : current q -> migrateQuestion q = q.
Proof. unfold current, migrateQuestion. by intros ->. Qed.

Lemma migrated_current q l : current (migrated q l).
Proof. reflexivity. Qed.

Lemma migrateQuestion_is_current q : current (migrateQuestion q).
Proof.
  unfold migrateQuestion.
  destruct (isQuestionV1 q) eqn:E; simpl.
  - destruct (truthy (Question.answer q)), (truthy (Question.answeredAt q));
      apply migrated_current.
  - exact E.
Qed.

Lemma migrateQuestion_id q : Question.id (migrateQuestion q) = Question.id q.
Proof.
  unfold migrateQuestion.
  destruct (isQuestionV1 q); simpl; [|done].
  by destruct (truthy (Question.answer q)), (truthy (Question.answeredAt q)).
Qed.

Lemma map_migrate_current (qs : list Question.t) :
  Forall current qs -> map migrateQuestion qs = qs.
Proof.
  induction 1 as [|q qs Hq _ IH]; simpl; [done|].
  by rewrite (migrateQuestion_current q Hq), IH.
Qed.

Lemma map_migrate_is_current (qs : list Question.t) :
  Forall current (map migrateQuestion qs).
Proof.
  induction qs as [|q qs IH]; simpl; constructor; auto using migrateQuestion_is_current.
Qed.

Lemma existsb_V1_false (qs : list Question.t) :
  existsb isQuestionV1 qs = false <-> Forall current qs.
Proof.
  induction qs as [|q qs IH]; simpl.
  - split; [constructor | done].
  - rewrite orb_false_iff, IH. split.
    + intros [? ?]. by constructor.
    + by inversion 1.
Qed.

Lemma truthy_Some_inv f s : truthy f = Some s -> f = Some s /\ s <> "".
Proof.
  destruct f as [x|]; simpl; [|done].
  destruct (String.eqb_spec x ""); [done|]. intros [= ->]. done.
Qed.

Lemma truthy_nonempty s : s <> "" -> truthy (Some s) = Some s.
Proof. simpl. by destruct (String.eqb_spec s ""). Qed.

(** C2, as stated, fails: [legacyEmptyAnswer] is a legacy entry whose
    [answer] and [answeredAt] fields are both present, and its migration
    synthesizes no Answer record at all. *)
Lemma migrate_present_fields_counterexample :
  isQuestionV1 legacyEmptyAnswer = true /\
  is_Some (Question.answer legacyEmptyAnswer) /\
  is_Some (Question.answeredAt legacyEmptyAnswer) /\
  Question.answers (migrateQuestion legacyEmptyAnswer) = Some (Arr []).
Proof. repeat split; by eexists. Qed.

(** C2, amended: for every legacy entry whose [answer] and [answeredAt] are
    both present and non-empty, migration synthesizes exactly one Answer
    record carrying them, with [isCorrect] defaulting to false when absent,
    [mistakes] to "none" when absent or empty and [explanation] to the
    empty string when absent. *)
Theorem migrate_synthesizes_one_answer (q : Question.t) (a t : string) :
  isQuestionV1 q = true ->
  Question.answer q = Some a -> a <> "" ->
  Question.answeredAt q = Some t -> t <> "" ->
  Question.answers (migrateQuestion q) =
    Some (Arr [ {| Answer.answer := a;
                   Answer.isCorrect := default false (Question.isCorrect q);
                   Answer.mistakes :=
                     match Question.mistakes q with
                     | None | Some "" => "none"
                     | Some m => m
                     end;
                   Answer.explanation := default "" (Question.explanation q);
                   Answer.answeredAt := t |} ]).
Proof.
  intros HV1 Ha Hane Ht Htne. unfold migrateQuestion.
  rewrite HV1, Ha, Ht, !truthy_nonempty by done. simpl.
  do 3 f_equal. f_equal.
  - unfold orElse. destruct (Question.mistakes q) as [m|]; simpl; [|done].
    destruct (String.eqb_spec m "") as [->|]; [done|].
    by destruct m.
  - unfold orElse. destruct (Question.explanation q) as [e|]; simpl; [|done].
    by destruct (String.eqb_spec e "") as [->|].
Qed.

(** The losslessness example of the specification: the entry with answer
    "goed", a timestamp and [isCorrect = true]. *)
Lemma migrate_synthesizes_one_answer_witness :
  Question.answers (migrateQuestion legacyGoed) =
    Some (Arr [ {| Answer.answer := "goed";
                   Answer.isCorrect := true;
                   Answer.mistakes := "none";
                   Answer.explanation := "";
                   Answer.answeredAt := "2024-05-01T10:00:00.000Z" |} ]).
Proof.
  apply (migrate_synthesizes_one_answer legacyGoed "goed" "2024-05-01T10:00:00.000Z");
    [reflexivity | reflexivity | discriminate | reflexivity | discriminate].
Defined.

(** C10: migration tests [answer] and [answeredAt] by truthiness.  For every
    legacy entry in which one of the two is the empty string, the migrated
    [answers] is empty and none of the legacy answer fields survives. *)
Theorem migrate_empty_string_discards (q : Question.t) :
  isQuestionV1 q = true ->
  Question.answer q = Some "" \/ Question.answeredAt q = Some "" ->
  Question.answers (migrateQuestion q) = Some (Arr []) /\
  Question.answer (migrateQuestion q) = None /\
  Question.isCorrect (migrateQuestion q) = None /\
  Question.mistakes (migrateQuestion q) = None /\
  Question.explanation (migrateQuestion q) = None /\
  Question.answeredAt (migrateQuestion q) = None.
Proof.
  intros HV1 Hempty. unfold migrateQuestion. rewrite HV1. simpl.
  destruct Hempty as [-> | ->]; simpl.
  - done.
  - by destruct (truthy (Question.answer q)).
Qed.

Lemma migrate_empty_string_discards_witness :
  Question.answers (migrateQuestion legacyEmptyAnswer) = Some (Arr []) /\
  Question.answer (migrateQuestion legacyEmptyAnswer) = None /\
  Question.isCorrect (migrateQuestion legacyEmptyAnswer) = None /\
  Question.mistakes (migrateQuestion legacyEmptyAnswer) = None /\
  Question.explanation (migrateQuestion legacyEmptyAnswer) = None /\
  Question.answeredAt (migrateQuestion legacyEmptyAnswer) = None.
Proof.
  apply (migrate_empty_string_discards legacyEmptyAnswer);
    [reflexivity | left; reflexivity].
Defined.

Lemma migrateUserDocument_current (doc : UserDocument) :
  Forall current (questions doc) -> migrateUserDocument doc = doc.
Proof.
  destruct doc as [qs dq lv]. unfold migrateUserDocument. simpl. intros H.
  by rewrite map_migrate_current.
Qed.

(** C3: migration is idempotent.  A document whose questions are all
    current-shaped is returned unchanged, migrating twice is migrating
    once, and a migrated document holds no legacy-shaped entry. *)
Theorem migrateUserDocument_idempotent (doc : UserDocument) :
  (Forall current (questions doc) -> migrateUserDocument doc = doc) /\
  migrateUserDocument (migrateUserDocument doc) = migrateUserDocument doc /\
  existsb isQuestionV1 (questions (migrateUserDocument doc)) = false.
Proof.
  split; [apply migrateUserDocument_current|]. split.
  - apply migrateUserDocument_current. simpl. apply map_migrate_is_current.
  - apply existsb_V1_false. simpl. apply map_migrate_is_current.
Qed.

(** ** The repository over the store *)

Ltac run := unfold mbind, mret, M_bind, M_ret; simpl.

Lemma getUserDocument_run uid w :
  getUserDocument uid w = (Ok (Some (loaded uid w)), afterLoad uid w).
Proof.
  unfold getUserDocument, loaded, afterLoad, getDoc. run.
  destruct (store w !! uid) as [rawDoc|] eqn:E; [|done].
  destruct (existsb isQuestionV1 (questions rawDoc)) eqn:EV; run; [|done].
  unfold updateDoc. by rewrite E.
Qed.

Lemma afterLoad_store uid w : store (afterLoad uid w) !! uid = Some (loaded uid w).
Proof.
  unfold afterLoad, loaded.
  destruct (store w !! uid) as [rawDoc|] eqn:E; simpl.
  - destruct (existsb isQuestionV1 (questions rawDoc)) eqn:EV; simpl.
    + apply lookup_insert_eq.
    + rewrite E. f_equal. symmetry.
      apply migrateUserDocument_current, existsb_V1_false, EV.
  - apply lookup_insert_eq.
Qed.

Lemma afterLoad_tick uid w : tick (afterLoad uid w) = tick w.
Proof.
  unfold afterLoad. destruct (store w !! uid) as [rawDoc|]; [|done].
  by destruct (existsb isQuestionV1 (questions rawDoc)).
Qed.

Lemma loaded_current uid w : Forall current (questions (loaded uid w)).
Proof.
  unfold loaded. destruct (store w !! uid); simpl.
  - apply map_migrate_is_current.
  - constructor.
Qed.

Lemma getUserDocument_stable uid w doc :
  store w !! uid = Some doc -> Forall current (questions doc) ->
  getUserDocument uid w = (Ok (Some doc), w).
Proof.
  intros Hs Hc. rewrite getUserDocument_run. unfold loaded, afterLoad.
  rewrite Hs. apply existsb_V1_false in Hc as Hc'. rewrite Hc'.
  by rewrite (migrateUserDocument_current doc Hc).
Qed.

Lemma updateUserDocument_run uid updates w doc :
  store w !! uid = Some doc ->
  updateUserDocument uid updates w
  = (Ok tt, written uid doc (removeUndefined updates) w).
Proof. intros Hs. unfold updateUserDocument, updateDoc. by rewrite Hs. Qed.

Lemma written_store uid doc data w :
  store (written uid doc data w) !! uid = Some (applyUpdates doc data).
Proof. apply lookup_insert_eq. Qed.

(** Migrating a document that is already current. *)
Lemma migrateUserDocument_idempotent_witness :
  Forall current (questions (migrateUserDocument mixedDoc)) /\
  migrateUserDocument (migrateUserDocument mixedDoc) = migrateUserDocument mixedDoc.
Proof.
  assert (H : Forall current (questions (migrateUserDocument mixedDoc)))
    by (repeat constructor).
  split; [exact H|].
  exact (proj1 (migrateUserDocument_idempotent (migrateUserDocument mixedDoc)) H).
Defined.

(** C5: when the stored document has a legacy entry, [getUserDocument]
    writes the upgraded sequence back before it returns; when it has none,
    the world is left as it was; either way the stored document holds no
    legacy entry afterwards and a second read returns the same document
    without writing. *)
Theorem getUserDocument_write_back (uid : string) (w : World) (rawDoc : UserDocument) :
  store w !! uid = Some rawDoc ->
  exists w',
    getUserDocument uid w = (Ok (Some (migrateUserDocument rawDoc)), w') /\
    (existsb isQuestionV1 (questions rawDoc) = true ->
       trace w' = trace w ++
         [EvUpdateDoc uid
            (DocUpdates.mk (Some (map migrateQuestion (questions rawDoc))) None None)] /\
       store w' = <[uid := migrateUserDocument rawDoc]> (store w)) /\
    (existsb isQuestionV1 (questions rawDoc) = false -> w' = w) /\
    (exists stored,
       store w' !! uid = Some stored /\
       questions stored = map migrateQuestion (questions rawDoc) /\
       existsb isQuestionV1 (questions stored) = false /\
       getUserDocument uid w' = (Ok (Some stored), w')).
Proof.
  intros Hs. exists (afterLoad uid w).
  pose proof (getUserDocument_run uid w) as Hrun.
  pose proof (afterLoad_store uid w) as Hst.
  unfold loaded in Hrun, Hst. rewrite Hs in Hrun, Hst.
  split; [exact Hrun|].
  assert (Hcur : Forall current (questions (migrateUserDocument rawDoc)))
    by apply map_migrate_is_current.
  split; [|split].
  - unfold afterLoad. rewrite Hs. by intros ->.
  - unfold afterLoad. rewrite Hs. by intros ->.
  - exists (migrateUserDocument rawDoc).
    split; [exact Hst|]. split; [done|]. split.
    + by apply existsb_V1_false.
    + by apply getUserDocument_stable.
Qed.

Lemma getUserDocument_write_back_witness :
  exists w',
    getUserDocument "u1" (worldWith "u1" mixedDoc)
      = (Ok (Some (migrateUserDocument mixedDoc)), w') /\
    trace w' = [EvUpdateDoc "u1"
                  (DocUpdates.mk (Some (map migrateQuestion (questions mixedDoc)))
                                 None None)].
Proof.
  destruct (getUserDocument_write_back "u1" (worldWith "u1" mixedDoc) mixedDoc)
    as (w' & Hrun & Hlegacy & _).
  - reflexivity.
  - exists w'. split; [exact Hrun|].
    apply Hlegacy. reflexivity.
Defined.

Lemma addQuestion_run uid question w :
  addQuestion uid question w
  = (Ok tt,
     written uid (loaded uid w)
       (DocUpdates.mk (Some (questions (loaded uid w) ++ [question])) None None)
       (afterLoad uid w)).
Proof.
  unfold addQuestion. run. rewrite getUserDocument_run.
  by rewrite (updateUserDocument_run _ _ _ _ (afterLoad_store uid w)).
Qed.

Lemma updateQuestion_run uid questionId updates w :
  updateQuestion uid questionId updates w
  = (Ok tt,
     written uid (loaded uid w)
       (DocUpdates.mk
          (Some (map (fun q => if Question.idIs questionId q
                               then Question.spread q (removeUndefined updates)
                               else q)
                     (questions (loaded uid w))))
          None None)
       (afterLoad uid w)).
Proof.
  unfold updateQuestion. run. rewrite getUserDocument_run.
  by rewrite (updateUserDocument_run _ _ _ _ (afterLoad_store uid w)).
Qed.

Lemma markQuestionAsked_run clock uid questionId w :
  let doc := loaded uid w in
  let today := beforeT (clock (tick w)) in
  markQuestionAsked clock uid questionId w
  = (Ok tt,
     written uid doc
       (DocUpdates.mk None
          (Some (<[today :=
                     {| askedQuestionIds :=
                          pushNew questionId (askedQuestionIds (recordOf doc today));
                        answeredQuestionIds :=
                          answeredQuestionIds (recordOf doc today) |}]>
                   (ledgerOf doc)))
          None)
       (ticked (afterLoad uid w))).
Proof.
  intros doc today.
  unfold markQuestionAsked, getTodayDate, newDateISO. run.
  rewrite getUserDocument_run. rewrite afterLoad_tick.
  fold doc today.
  unfold updateUserDocument, updateDoc. simpl.
  rewrite afterLoad_store. fold doc.
  unfold written, ticked, pushNew, recordOf, ledgerOf.
  unfold removeUndefined, removeUndefined_document. simpl.
  rewrite !afterLoad_tick.
  destruct (includes questionId _) eqn:E; simpl; [|done].
  by destruct (default noQuestionsToday (default ∅ (dailyQuestions doc) !! today)).
Qed.

Lemma markQuestionAnswered_run clock uid questionId w :
  let doc := loaded uid w in
  let today := beforeT (clock (tick w)) in
  markQuestionAnswered clock uid questionId w
  = (Ok tt,
     written uid doc
       (DocUpdates.mk None
          (Some (<[today :=
                     {| askedQuestionIds :=
                          askedQuestionIds (recordOf doc today);
                        answeredQuestionIds :=
                          pushNew questionId (answeredQuestionIds (recordOf doc today)) |}]>
                   (ledgerOf doc)))
          None)
       (ticked (afterLoad uid w))).
Proof.
  intros doc today.
  unfold markQuestionAnswered, getTodayDate, newDateISO. run.
  rewrite getUserDocument_run. rewrite afterLoad_tick.
  fold doc today.
  unfold updateUserDocument, updateDoc. simpl.
  rewrite afterLoad_store. fold doc.
  unfold written, ticked, pushNew, recordOf, ledgerOf.
  unfold removeUndefined, removeUndefined_document. simpl.
  rewrite !afterLoad_tick.
  destruct (includes questionId _) eqn:E; simpl; [|done].
  by destruct (default noQuestionsToday (default ∅ (dailyQuestions doc) !! today)).
Qed.

Lemma loaded_stable uid w doc :
  store w !! uid = Some doc -> Forall current (questions doc) ->
  loaded uid w = doc /\ afterLoad uid w = w.
Proof.
  intros Hs Hc. pose proof (getUserDocument_stable uid w doc Hs Hc) as H.
  rewrite getUserDocument_run in H. injection H as H1 H2. by split.
Qed.

Lemma lookup_map {A B} (f : A -> B) (l : list A) (i : nat) :
  map f l !! i = f <$> l !! i.
Proof.
  revert i. induction l as [|x l IH]; intros [|i]; simpl; auto.
Qed.

Lemma map_unmatched {A} (p : A -> bool) (f : A -> A) (l : list A) :
  (forall x, x ∈ l -> p x = false) -> map (fun x => if p x then f x else x) l = l.
Proof.
  induction l as [|x l IH]; intros H; simpl; [done|].
  rewrite (H x) by apply list_elem_of_here. f_equal. apply IH.
  intros y Hy. by apply H, list_elem_of_further.
Qed.

(** ** updateQuestion *)

Lemma spread_undefinedKeysKept updates q :
  undefinedKeysKept updates q (Question.spread q (removeUndefined updates)).
Proof.
  unfold undefinedKeysKept, removeUndefined, removeUndefined_question. simpl.
  repeat split; by intros ->.
Qed.

(** C8: [updateQuestion] rewrites the sequence it has read in place.  The
    sequence read is the one [getUserDocument] returns (the stored one when
    that is already current); the rewritten sequence has its length, holds
    every question with another id at its old position, holds the merge at
    the positions of [questionId], and is the sequence read when no
    question has that id.  A key of [updates] holding [undefined] is dropped
    before the merge, so the merged question keeps its stored value. *)
Theorem updateQuestion_frame (uid questionId : string)
    (updates : Question.partial field) (w : World) :
  exists userDoc w1 w2 stored,
    getUserDocument uid w = (Ok (Some userDoc), w1) /\
    (forall rawDoc, store w !! uid = Some rawDoc ->
       Forall current (questions rawDoc) -> userDoc = rawDoc) /\
    updateQuestion uid questionId updates w = (Ok tt, w2) /\
    store w2 !! uid = Some stored /\
    length (questions stored) = length (questions userDoc) /\
    (forall i q, questions userDoc !! i = Some q ->
       Question.id q <> questionId -> questions stored !! i = Some q) /\
    (forall i q, questions userDoc !! i = Some q ->
       Question.id q = questionId ->
       exists merged,
         questions stored !! i = Some merged /\
         merged = Question.spread q (removeUndefined updates) /\
         undefinedKeysKept updates q merged) /\
    ((forall q, q ∈ questions userDoc -> Question.id q <> questionId) ->
       questions stored = questions userDoc).
Proof.
  eexists (loaded uid w), (afterLoad uid w), _, _.
  split; [apply getUserDocument_run|].
  split. { intros rawDoc Hs Hc. by apply loaded_stable. }
  split; [apply updateQuestion_run|].
  split; [apply written_store|]. simpl.
  split; [apply length_map|].
  split; [|split].
  - intros i q Hi Hne. rewrite lookup_map, Hi. simpl.
    unfold Question.idIs. by destruct (String.eqb_spec (Question.id q) questionId).
  - intros i q Hi He. eexists. split; [|split; [reflexivity|]].
    + rewrite lookup_map, Hi. simpl.
      unfold Question.idIs. by destruct (String.eqb_spec (Question.id q) questionId).
    + apply spread_undefinedKeysKept.
  - intros Hno. apply map_unmatched. intros q Hq.
    unfold Question.idIs. destruct (String.eqb_spec (Question.id q) questionId); [|done].
    by destruct (Hno q Hq).
Qed.

(** ** The daily ledger *)

Lemma includes_spec x l : includes x l = true <-> x ∈ l.
Proof.
  unfold includes. rewrite existsb_exists. split.
  - intros (y & Hy & Heq). apply String.eqb_eq in Heq as ->.
    by apply list_elem_of_In.
  - intros H. exists x. split; [by apply list_elem_of_In | apply String.eqb_refl].
Qed.

Lemma pushNew_elem x l : x ∈ pushNew x l.
Proof.
  unfold pushNew. destruct (includes x l) eqn:E.
  - by apply includes_spec.
  - apply elem_of_app. right. apply list_elem_of_here.
Qed.

Lemma pushNew_NoDup x l : NoDup l -> NoDup (pushNew x l).
Proof.
  intros Hl. unfold pushNew. destruct (includes x l) eqn:E; [done|].
  apply NoDup_app. split; [done|]. split.
  - intros y Hy ->%list_elem_of_singleton.
    apply includes_spec in Hy. congruence.
  - apply NoDup_singleton.
Qed.

Lemma pushNew_again x l : pushNew x (pushNew x l) = pushNew x l.
Proof.
  unfold pushNew at 1.
  by rewrite (proj2 (includes_spec x (pushNew x l)) (pushNew_elem x l)).
Qed.

Lemma pushNew_once x l :
  NoDup l -> count_occ string_dec (pushNew x l) x = 1.
Proof.
  intros Hl.
  apply (proj1 (NoDup_count_occ' string_dec (pushNew x l))).
  - apply NoDup_ListNoDup, pushNew_NoDup, Hl.
  - apply list_elem_of_In, pushNew_elem.
Qed.

Lemma ledgerNoDup_record ledger today :
  ledgerNoDup ledger ->
  NoDup (askedQuestionIds (default noQuestionsToday (ledger !! today))) /\
  NoDup (answeredQuestionIds (default noQuestionsToday (ledger !! today))).
Proof.
  intros H. destruct (ledger !! today) as [record|] eqn:E; simpl.
  - by apply (H today).
  - split; apply NoDup_nil_2.
Qed.

Lemma ledgerNoDup_insert ledger today record :
  ledgerNoDup ledger ->
  NoDup (askedQuestionIds record) -> NoDup (answeredQuestionIds record) ->
  ledgerNoDup (<[today := record]> ledger).
Proof.
  intros H Ha Hb date r. rewrite lookup_insert.
  case_decide; [by intros [= <-] | apply H].
Qed.



Lemma written_reload uid doc data w :
  Forall current (questions (applyUpdates doc data)) ->
  loaded uid (written uid doc data w) = applyUpdates doc data /\
  afterLoad uid (written uid doc data w) = written uid doc data w.
Proof. intros Hc. apply loaded_stable; [apply written_store | done]. Qed.

Lemma ledgerOf_loaded uid w :
  (forall rawDoc, store w !! uid = Some rawDoc -> ledgerNoDup (ledgerOf rawDoc)) ->
  ledgerNoDup (ledgerOf (loaded uid w)).
Proof.
  intros H. unfold loaded. destruct (store w !! uid) as [rawDoc|] eqn:E.
  - apply (H rawDoc eq_refl).
  - intros date record. unfold ledgerOf. simpl. by rewrite lookup_empty.
Qed.

(** C7: the marking operations insert the id only when it is not already a
    member, so they keep every per-date id list free of duplicates; and
    marking the same id as asked twice on one date leaves it in that date's
    [askedQuestionIds] exactly once. *)
Theorem markQuestion_no_duplicates (clock : nat -> string)
    (uid questionId : string) (w : World) :
  (forall rawDoc, store w !! uid = Some rawDoc -> ledgerNoDup (ledgerOf rawDoc)) ->
  (exists userDoc w0 w1 doc1,
     getUserDocument uid w = (Ok (Some userDoc), w0) /\
     markQuestionAsked clock uid questionId w = (Ok tt, w1) /\
     store w1 !! uid = Some doc1 /\
     ledgerNoDup (ledgerOf doc1) /\
     askedQuestionIds (recordOf doc1 (beforeT (clock (tick w))))
     = (if includes questionId
             (askedQuestionIds (recordOf userDoc (beforeT (clock (tick w)))))
        then askedQuestionIds (recordOf userDoc (beforeT (clock (tick w))))
        else askedQuestionIds (recordOf userDoc (beforeT (clock (tick w))))
             ++ [questionId])) /\
  (exists userDoc w0 w1 doc1,
     getUserDocument uid w = (Ok (Some userDoc), w0) /\
     markQuestionAnswered clock uid questionId w = (Ok tt, w1) /\
     store w1 !! uid = Some doc1 /\
     ledgerNoDup (ledgerOf doc1) /\
     answeredQuestionIds (recordOf doc1 (beforeT (clock (tick w))))
     = (if includes questionId
             (answeredQuestionIds (recordOf userDoc (beforeT (clock (tick w)))))
        then answeredQuestionIds (recordOf userDoc (beforeT (clock (tick w))))
        else answeredQuestionIds (recordOf userDoc (beforeT (clock (tick w))))
             ++ [questionId])) /\
  (exists w1 w2 doc2,
     markQuestionAsked clock uid questionId w = (Ok tt, w1) /\
     markQuestionAsked clock uid questionId w1 = (Ok tt, w2) /\
     store w2 !! uid = Some doc2 /\
     ledgerNoDup (ledgerOf doc2) /\
     (beforeT (clock (tick w1)) = beforeT (clock (tick w)) ->
      count_occ string_dec
        (askedQuestionIds (recordOf doc2 (beforeT (clock (tick w))))) questionId
      = 1)).
Proof.
  intros Hinv. apply ledgerOf_loaded in Hinv.
  set (doc := loaded uid w) in *.
  set (today := beforeT (clock (tick w))).
  destruct (ledgerNoDup_record _ today Hinv) as [Hasked Hanswered].
  fold (recordOf doc today) in Hasked, Hanswered.
  assert (Hcur : forall data,
             DocUpdates.questions data = None ->
             Forall current (questions (applyUpdates doc data))).
  { intros data Hq. unfold applyUpdates. simpl. rewrite Hq. apply loaded_current. }
  split; [|split].
  - eexists doc, _, _, _. split; [apply getUserDocument_run|].
    rewrite markQuestionAsked_run.
    split; [done|]. split; [apply written_store|]. split.
    + unfold ledgerOf. simpl.
      apply ledgerNoDup_insert; simpl; [done | by apply pushNew_NoDup | done].
    + unfold recordOf at 1, ledgerOf at 1. simpl. by rewrite lookup_insert_eq.
  - eexists doc, _, _, _. split; [apply getUserDocument_run|].
    rewrite markQuestionAnswered_run.
    split; [done|]. split; [apply written_store|]. split.
    + unfold ledgerOf. simpl.
      apply ledgerNoDup_insert; simpl; [done | done | by apply pushNew_NoDup].
    + unfold recordOf at 1, ledgerOf at 1. simpl. by rewrite lookup_insert_eq.
  - eexists _, _, _. split; [apply markQuestionAsked_run|].
    fold doc today.
    set (data1 := DocUpdates.mk None (Some (<[today := _]> (ledgerOf doc))) None).
    destruct (written_reload uid doc data1 (ticked (afterLoad uid w)))
      as [Hload Hafter]; [by apply Hcur|].
    rewrite markQuestionAsked_run, Hload, Hafter.
    split; [done|]. split; [apply written_store|].
    set (today2 := beforeT (clock (tick (written uid doc data1 (ticked (afterLoad uid w)))))).
    assert (Hinv1 : ledgerNoDup (ledgerOf (applyUpdates doc data1))).
    { unfold ledgerOf. simpl.
      apply ledgerNoDup_insert; simpl; [done | by apply pushNew_NoDup | done]. }
    destruct (ledgerNoDup_record _ today2 Hinv1) as [Hasked1 Hanswered1].
    fold (recordOf (applyUpdates doc data1) today2) in Hasked1, Hanswered1.
    split.
    + unfold ledgerOf at 1. simpl.
      apply ledgerNoDup_insert; simpl; [done | by apply pushNew_NoDup | done].
    + intros Hsame. subst today2 data1. rewrite Hsame.
      unfold recordOf at 1, ledgerOf at 1. simpl. rewrite lookup_insert_eq. simpl.
      unfold recordOf at 1, ledgerOf at 1. simpl. rewrite lookup_insert_eq. simpl.
      rewrite pushNew_again. by apply pushNew_once.
Qed.

(** ** Submitting answers *)

Lemma spread_current q u : current q -> current (Question.spread q u).
Proof.
  unfold current, isQuestionV1. simpl.
  destruct (Question.p_answers u); simpl; [done|]. by destruct (Question.answers q).
Qed.

Lemma find_unique (qs : list Question.t) (q : Question.t) :
  NoDup (map Question.id qs) -> q ∈ qs ->
  find (Question.idIs (Question.id q)) qs = Some q.
Proof.
  induction qs as [|p qs IH]; simpl; intros Hnd Hin.
  - by apply elem_of_nil in Hin.
  - apply NoDup_cons in Hnd as [Hp Hnd].
    unfold Question.idIs at 1.
    destruct (String.eqb_spec (Question.id p) (Question.id q)) as [Heq|Hne].
    + apply elem_of_cons in Hin as [->|Hin]; [done|].
      destruct Hp. rewrite Heq. apply list_elem_of_In, in_map, list_elem_of_In, Hin.
    + apply elem_of_cons in Hin as [->|Hin]; [done|]. by apply IH.
Qed.

Section Submit.

Variable clock : nat -> string.
Variable validationService : nat -> string -> string -> option ValidationResponse.

Lemma signedIn_inSync uid w st w' :
  signedIn uid w = (Ok st, w') -> inSync uid st w'.
Proof.
  unfold signedIn. run. rewrite getUserDocument_run. intros [= <- <-].
  split; [done|]. exists (loaded uid w).
  split; [done|]. split; [apply afterLoad_store | apply loaded_current].
Qed.

Lemma handleAnswer_accepted uid questionId answerText st w doc q l r :
  user st = Some uid -> userDoc st = Some doc ->
  store w !! uid = Some doc -> Forall current (questions doc) ->
  truthy (validatingQuestionId st) = None ->
  find (Question.idIs questionId) (questions doc) = Some q ->
  Question.answers q = Some (Arr l) ->
  Question.question q <> "" -> answerText <> "" ->
  validationService (tick w) (Question.question q) answerText = Some r ->
  let newAnswer :=
    {| Answer.answer := answerText;
       Answer.isCorrect := correct r;
       Answer.mistakes := orElse (Some (mistakes r)) "none";
       Answer.explanation := explanation r;
       Answer.answeredAt := clock (S (tick w)) |} in
  let rewritten :=
    map (fun p => if Question.idIs questionId p
                  then Question.spread p (removeUndefined (answerUpdate q l newAnswer))
                  else p)
        (questions doc) in
  exists w' doc',
    handleAnswer clock validationService questionId answerText st w
    = (Ok {| user := Some uid; userDoc := Some doc'; validatingQuestionId := None |},
       w') /\
    store w' !! uid = Some doc' /\
    questions doc' = rewritten /\
    level doc' = level doc /\
    (l <> [] -> dailyQuestions doc' = dailyQuestions doc) /\
    (exists rest, trace w' =
       trace w ++ EvValidate (Question.question q) answerText :: rest /\
       Forall (fun e => match e with EvValidate _ _ => False | _ => True end) rest).
Proof.
  intros Hu Hd Hs Hc Hv Hf Ha Hq Ht Hr newAnswer rewritten.
  unfold handleAnswer. rewrite Hu, Hd, Hv.
  unfold tryCatch, handleAnswer_try. run. rewrite Hf.
  unfold validateAnswer at 1. run.
  destruct (String.eqb_spec (Question.question q) "") as [|_]; [done|].
  destruct (String.eqb_spec answerText "") as [|_]; [done|].
  simpl. rewrite Hr. unfold existingAnswersOf. rewrite Ha. run.
  fold newAnswer. fold (answerUpdate q l newAnswer).
  set (w2 := {| store := store w;
                trace := trace w ++ [EvValidate (Question.question q) answerText];
                tick := S (S (tick w)) |}).
  destruct (loaded_stable uid w2 doc Hs Hc) as [Hl2 Ha2].
  rewrite updateQuestion_run, Hl2, Ha2. fold rewritten.
  set (data := DocUpdates.mk (Some rewritten) None None).
  assert (Hcur : Forall current (questions (applyUpdates doc data))).
  { simpl. subst rewritten. clear -Hc.
    induction Hc as [|p ps Hp _ IH]; simpl; constructor; [|done].
    destruct (Question.idIs questionId p); [by apply spread_current | done]. }
  destruct (written_reload uid doc data w2 Hcur) as [Hl3 Ha3].
  destruct l as [|a0 l0]; simpl.
  - rewrite markQuestionAnswered_run, Hl3, Ha3.
    match goal with
    | |- context [written uid (applyUpdates doc data) ?d ?w0] =>
        set (data' := d); set (w3 := w0)
    end.
    assert (Hcur' : Forall current (questions (applyUpdates (applyUpdates doc data) data')))
      by done.
    destruct (written_reload uid _ data' w3 Hcur') as [Hl4 Ha4].
    rewrite getUserDocument_run, Hl4, Ha4. simpl.
    eexists _, _. split; [reflexivity|].
    split; [apply written_store|].
    split; [done|]. split; [done|]. split; [done|].
    eexists. split.
    + subst w3 w2. simpl. rewrite <- !app_assoc. simpl. reflexivity.
    + repeat constructor.
  - rewrite getUserDocument_run, Hl3, Ha3. simpl.
    eexists _, _. split; [reflexivity|].
    split; [apply written_store|].
    split; [done|]. split; [done|]. split; [done|].
    eexists. split.
    + subst w2. simpl. rewrite <- !app_assoc. simpl. reflexivity.
    + repeat constructor.
Qed.

(** C6: an accepted Submit-Answer call appends exactly one Answer to the
    question and leaves the answers it had in place; on a question without
    answers it sets the status to answered, on a question with answers it
    leaves the status as it is; every other question keeps its position
    and content, and the state it leaves satisfies the preconditions again,
    so the same holds for every later call. *)
Theorem handleAnswer_appends (uid answerText : string) (st : AppState)
    (w : World) (doc : UserDocument) (q : Question.t) (l : list Answer.t)
    (r : ValidationResponse) :
  user st = Some uid -> userDoc st = Some doc ->
  store w !! uid = Some doc -> Forall current (questions doc) ->
  NoDup (map Question.id (questions doc)) ->
  truthy (validatingQuestionId st) = None ->
  q ∈ questions doc -> Question.answers q = Some (Arr l) ->
  Question.question q <> "" -> answerText <> "" ->
  validationService (tick w) (Question.question q) answerText = Some r ->
  exists st' w' doc' q' a,
    handleAnswer clock validationService (Question.id q) answerText st w
    = (Ok st', w') /\
    (* the state is again one a call can start from *)
    user st' = Some uid /\ userDoc st' = Some doc' /\
    store w' !! uid = Some doc' /\ Forall current (questions doc') /\
    NoDup (map Question.id (questions doc')) /\
    truthy (validatingQuestionId st') = None /\
    (* the new answer *)
    Answer.answer a = answerText /\ Answer.isCorrect a = correct r /\
    (* the question *)
    Question.id q' = Question.id q /\
    Question.question q' = Question.question q /\
    Question.answers q' = Some (Arr (l ++ [a])) /\
    Question.status q' =
      match l with [] => StatusAnswered | _ :: _ => Question.status q end /\
    (* the sequence *)
    length (questions doc') = length (questions doc) /\
    (forall i, questions doc !! i = Some q -> questions doc' !! i = Some q') /\
    (forall i p, questions doc !! i = Some p -> Question.id p <> Question.id q ->
       questions doc' !! i = Some p).
Proof.
  intros Hu Hd Hs Hc Hnd Hv Hin Ha Hq Ht Hr.
  pose proof (find_unique _ _ Hnd Hin) as Hf.
  destruct (handleAnswer_accepted uid (Question.id q) answerText st w doc q l r
              Hu Hd Hs Hc Hv Hf Ha Hq Ht Hr)
    as (w' & doc' & Hrun & Hst & Hqs & _ & _ & _).
  set (a := {| Answer.answer := answerText;
               Answer.isCorrect := correct r;
               Answer.mistakes := orElse (Some (mistakes r)) "none";
               Answer.explanation := explanation r;
               Answer.answeredAt := clock (S (tick w)) |}) in *.
  set (q' := Question.spread q (removeUndefined (answerUpdate q l a))).
  assert (Hids : map Question.id (questions doc') = map Question.id (questions doc)).
  { rewrite Hqs, map_map. apply map_ext. intros p.
    by destruct (Question.idIs (Question.id q) p). }
  eexists _, w', doc', q', a.
  split; [exact Hrun|]. simpl.
  split; [done|]. split; [done|]. split; [done|]. split.
  { rewrite Hqs. clear -Hc.
    induction Hc as [|p ps Hp _ IH]; simpl; constructor; [|done].
    destruct (Question.idIs (Question.id q) p); [by apply spread_current | done]. }
  split; [by rewrite Hids|].
  split; [done|]. split; [done|]. split; [done|]. split; [done|]. split; [done|].
  split; [done|]. split; [by destruct l|].
  split; [by rewrite Hqs, length_map|]. split.
  - intros i Hi. rewrite Hqs, lookup_map, Hi. simpl.
    unfold Question.idIs. by rewrite String.eqb_refl.
  - intros i p Hi Hne. rewrite Hqs, lookup_map, Hi. simpl.
    unfold Question.idIs.
    by destruct (String.eqb_spec (Question.id p) (Question.id q)).
Qed.

End Submit.

(** ** The correctness lock *)

(** C1: for every question that holds an answer with [isCorrect = true], a
    further Submit-Answer is a no-op.  Submit-Answer reaches [handleAnswer]
    through the forms of the question card only, and the card of such a
    question renders neither form: [handleAnswer] is not called, the trace
    gets no validation call, and the cached state and the store (answers,
    status, daily ledger) stay as they are. *)
Theorem submitOnCard_after_correct (clock : nat -> string)
    (validationService : nat -> string -> string -> option ValidationResponse)
    (question : Question.t) (l : list Answer.t) (answer : string)
    (st : AppState) (w : World) :
  Question.answers question = Some (Arr l) ->
  existsb Answer.isCorrect l = true ->
  showsAnswerForm question = false /\
  showsTryAgainForm question = false /\
  submitOnCard clock validationService question answer st w = (Ok st, w).
Proof.
  intros Ha Hcorrect.
  assert (H1 : showsAnswerForm question = false).
  { unfold showsAnswerForm. rewrite Ha. by destruct l. }
  assert (H2 : showsTryAgainForm question = false).
  { unfold showsTryAgainForm. rewrite Ha, Hcorrect. apply andb_false_r. }
  split; [done|]. split; [done|].
  unfold submitOnCard. by rewrite H1, H2.
Qed.

Lemma submitOnCard_after_correct_witness :
  submitOnCard noon strictService lockedQuestion "Goed het gaat"
    lockedState (worldWith "u1" lockedDoc)
  = (Ok lockedState, worldWith "u1" lockedDoc).
Proof.
  apply (submitOnCard_after_correct noon strictService lockedQuestion
           [correctAnswer] "Goed het gaat" lockedState (worldWith "u1" lockedDoc));
    reflexivity.
Defined.

(** ** The history sort of the generate-question handler *)

Module GenerateQuestionFacts.
Import GenerateQuestion.

Section Facts.

Variable getTime : string -> option Z.
Variable generateContent : string -> option string.

Ltac step := unfold mbind, mret, Result_bind, Result_ret; simpl.

Lemma insertSorted_elem x sorted sorted' q :
  insertSorted getTime x sorted = Ok sorted' -> q ∈ sorted -> q ∈ sorted'.
Proof.
  revert sorted'. induction sorted as [|y rest IH]; simpl; intros sorted' H Hq.
  - by apply elem_of_nil in Hq.
  - revert H. step. destruct (compareFn getTime y x) as [v|]; [|done].
    destruct (positive v).
    + intros [= <-]. by apply list_elem_of_further.
    + destruct (insertSorted getTime x rest) as [rest'|] eqn:E; [|done].
      intros [= <-]. apply elem_of_cons in Hq as [->|Hq].
      * apply list_elem_of_here.
      * apply list_elem_of_further. by apply IH.
Qed.

Lemma insertSorted_new x sorted sorted' :
  insertSorted getTime x sorted = Ok sorted' -> x ∈ sorted'.
Proof.
  revert sorted'. induction sorted as [|y rest IH]; simpl; intros sorted'.
  - intros [= <-]. apply list_elem_of_here.
  - step. destruct (compareFn getTime y x) as [v|]; [|done].
    destruct (positive v).
    + intros [= <-]. apply list_elem_of_here.
    + destruct (insertSorted getTime x rest) as [rest'|] eqn:E; [|done].
      intros [= <-]. apply list_elem_of_further. by apply IH.
Qed.

Lemma sortFrom_elem l sorted result q :
  sortFrom getTime sorted l = Ok result -> q ∈ sorted \/ q ∈ l -> q ∈ result.
Proof.
  revert sorted. induction l as [|x rest IH]; simpl; intros sorted.
  - intros [= <-] [Hq|Hq]; [done | by apply elem_of_nil in Hq].
  - step. destruct (insertSorted getTime x sorted) as [sorted'|] eqn:E; [|done].
    intros H [Hq|Hq]; apply (IH _ H).
    + left. by apply (insertSorted_elem _ _ _ _ E).
    + apply elem_of_cons in Hq as [->|Hq]; [left | by right].
      by apply (insertSorted_new _ _ _ E).
Qed.

Lemma renderAll_elem l lines q :
  renderAll l = Ok lines -> q ∈ l -> exists a, lastAnswer q = Ok a.
Proof.
  revert lines. induction l as [|p rest IH]; simpl; intros lines H Hq.
  - by apply elem_of_nil in Hq.
  - revert H. step. destruct (lastAnswer p) as [a|] eqn:Ea; [|done].
    destruct (renderAll rest) as [lines'|] eqn:E; [|done]. intros _.
    apply elem_of_cons in Hq as [->|Hq]; [by exists a | by apply (IH lines')].
Qed.

(** An answered question without a last answer makes the history throw. *)
Lemma conversationHistory_throws answeredQuestions q :
  q ∈ answeredQuestions ->
  Question.status q = StatusAnswered ->
  Question.answers q = Some (Arr []) ->
  exists e, conversationHistory getTime answeredQuestions = Throw e.
Proof.
  intros Hq Hstatus Hanswers. unfold conversationHistory, sort. step.
  destruct (sortFrom getTime [] _) as [sorted|e] eqn:Es; [|by exists e].
  destruct (renderAll sorted) as [lines|e] eqn:Er; [|by exists e].
  destruct (renderAll_elem sorted lines q Er) as [a Ha].
  - apply (sortFrom_elem _ _ _ _ Es). right.
    apply list_elem_of_In, filter_In. split; [by apply list_elem_of_In|].
    by rewrite Hstatus.
  - unfold lastAnswer in Ha. by rewrite Hanswers in Ha.
Qed.

Lemma compareFn_timed a b x y :
  timed getTime a x -> timed getTime b y -> compareFn getTime a b = Ok (Some (x - y)%Z).
Proof. unfold timed, compareFn. step. by intros -> ->. Qed.

Lemma timed_functional q x y : timed getTime q x -> timed getTime q y -> x = y.
Proof. unfold timed. by intros -> [= ->]. Qed.

(** On questions that all have a time, inserting keeps the order and only
    adds the new element. *)
Lemma insertSorted_chronological x sorted :
  (exists z, timed getTime x z) ->
  Forall (fun q => exists z, timed getTime q z) sorted ->
  chronological getTime sorted ->
  exists sorted',
    insertSorted getTime x sorted = Ok sorted' /\
    sorted' ≡ₚ x :: sorted /\
    chronological getTime sorted'.
Proof.
  intros [zx Hx] Hall Hs.
  induction sorted as [|y rest IH]; simpl.
  - exists [x]. split; [done|]. split; [done|].
    repeat constructor.
  - apply Forall_cons in Hall as [[zy Hy] Hall].
    apply StronglySorted_inv in Hs as [Hrest Hy_le].
    step. rewrite (compareFn_timed y x zy zx Hy Hx). simpl.
    destruct (Z.ltb_spec 0 (zy - zx)) as [Hlt|Hge].
    + exists (x :: y :: rest). split; [done|]. split; [done|].
      constructor; [by constructor|].
      constructor.
      * intros a b Ha Hb.
        rewrite (timed_functional _ _ _ Ha Hx), (timed_functional _ _ _ Hb Hy). lia.
      * apply Forall_forall. intros q Hq a b Ha Hb.
        rewrite Forall_forall in Hy_le.
        rewrite (timed_functional _ _ _ Ha Hx).
        pose proof (Hy_le q Hq zy b Hy Hb). lia.
    + destruct (IH Hall Hrest) as (rest' & -> & Hperm & Hsorted).
      exists (y :: rest'). split; [done|]. split.
      * rewrite Hperm. apply Permutation_swap.
      * constructor; [done|].
        rewrite Hperm. constructor; [|done].
        intros a b Ha Hb.
        rewrite (timed_functional _ _ _ Ha Hy), (timed_functional _ _ _ Hb Hx). lia.
Qed.

Lemma sortFrom_chronological l sorted :
  Forall (fun q => exists z, timed getTime q z) sorted ->
  Forall (fun q => exists z, timed getTime q z) l ->
  chronological getTime sorted ->
  exists result,
    sortFrom getTime sorted l = Ok result /\
    result ≡ₚ sorted ++ l /\
    chronological getTime result.
Proof.
  revert sorted. induction l as [|x rest IH]; simpl; intros sorted Hs Hl Hc.
  - exists sorted. by rewrite app_nil_r.
  - apply Forall_cons in Hl as [Hx Hl].
    destruct (insertSorted_chronological x sorted Hx Hs Hc)
      as (sorted' & -> & Hperm & Hc').
    step. destruct (IH sorted') as (result & -> & Hperm' & Hc''); [|done|done|].
    + rewrite Hperm. by constructor.
    + exists result. split; [done|]. split; [|done].
      rewrite Hperm', Hperm. by rewrite <- Permutation_middle.
Qed.

(** What the sort does where it does not throw: when every question has a
    last answer whose timestamp parses (or is empty, which counts as zero),
    the result is the input reordered by that time. *)
Lemma sort_chronological l :
  Forall (fun q => exists z, timed getTime q z) l ->
  exists result,
    sort getTime l = Ok result /\ result ≡ₚ l /\ chronological getTime result.
Proof.
  intros Hl. apply (sortFrom_chronological l []); [constructor | done | constructor].
Qed.

(** C4, on the code: a request that carries an answered question whose
    [answers] array is empty is answered with status 500, whatever the
    other questions, the clock parser and the model are. *)
Theorem handler_fails_on_empty_answers (req : Request) (q : Question.t)
    (qs : list Question.t) (lvl : string) :
  method req = "POST" ->
  answeredQuestions req = Some qs ->
  currentLevel req = Some lvl -> lvl <> "" ->
  q ∈ qs ->
  Question.status q = StatusAnswered ->
  Question.answers q = Some (Arr []) ->
  handler getTime generateContent req
  = {| statusCode := 500; json := ErrorBody "Failed to generate question" |}.
Proof.
  intros Hm Hqs Hl Hne Hq Hstatus Hanswers.
  unfold handler, handler_try. rewrite Hm, Hqs, Hl. simpl.
  destruct (String.eqb_spec lvl ""); [done|]. step.
  by destruct (conversationHistory_throws qs q Hq Hstatus Hanswers) as [e ->].
Qed.

End Facts.

Lemma handler_fails_on_empty_answers_witness :
  handler (fun _ => Some 0%Z) (fun _ => Some "Wat doe je vandaag?") failingRequest
  = {| statusCode := 500; json := ErrorBody "Failed to generate question" |}.
Proof.
  apply (handler_fails_on_empty_answers _ _ failingRequest
           (migrateQuestion legacyEmptyAnswer)
           [lockedQuestion; migrateQuestion legacyEmptyAnswer] "a0");
    try reflexivity; try discriminate.
  apply list_elem_of_further, list_elem_of_here.
Defined.

End GenerateQuestionFacts.

(** ** The properties at concrete worlds *)

(** The first answer to a question that was asked. *)
Lemma handleAnswer_appends_witness :
  exists st' w' doc' q' a,
    handleAnswer noon lenientService "1700000000003" "Ik ga naar huis"
      askedState (worldWith "u1" askedDoc) = (Ok st', w') /\
    userDoc st' = Some doc' /\
    questions doc' !! 1 = Some q' /\
    Question.status q' = StatusAnswered /\
    Question.answers q' = Some (Arr [a]) /\
    Answer.answer a = "Ik ga naar huis" /\
    Answer.isCorrect a = true.
Proof.
  destruct (handleAnswer_appends noon lenientService "u1" "Ik ga naar huis"
              askedState (worldWith "u1" askedDoc) askedDoc askedQuestion []
              {| correct := true; mistakes := ""; explanation := "Prima." |})
    as (st' & w' & doc' & q' & a & Hrun & _ & Hdoc & _ & _ & _ & _
        & Hanswer & Hcorrect & _ & _ & Hanswers & Hstatus & _ & Hat & _);
    try reflexivity; try discriminate.
  - repeat constructor.
  - apply NoDup_cons. split; [|apply NoDup_singleton].
    intros H%list_elem_of_singleton. discriminate.
  - apply list_elem_of_further, list_elem_of_here.
  - exists st', w', doc', q', a.
    split; [exact Hrun|]. split; [exact Hdoc|].
    split; [by apply Hat|]. by repeat split.
Defined.

(** Marking twice on a ledger that already has a record for the day. *)
Lemma markQuestion_no_duplicates_witness :
  exists w1 w2 doc2,
    markQuestionAsked noon "u1" "1700000000004" (worldWith "u1" askedDoc)
      = (Ok tt, w1) /\
    markQuestionAsked noon "u1" "1700000000004" w1 = (Ok tt, w2) /\
    store w2 !! "u1" = Some doc2 /\
    count_occ string_dec
      (askedQuestionIds (recordOf doc2 "2024-05-02")) "1700000000004" = 1.
Proof.
  destruct (markQuestion_no_duplicates noon "u1" "1700000000004"
              (worldWith "u1" askedDoc))
    as (_ & _ & w1 & w2 & doc2 & H1 & H2 & Hst & _ & Hcount).
  - intros rawDoc. simpl. rewrite lookup_singleton_eq. intros [= <-].
    intros date record. unfold ledgerOf. simpl. rewrite lookup_singleton.
    case_decide; [|done]. intros [= <-]. simpl.
    split; [apply NoDup_singleton | apply NoDup_nil_2].
  - exists w1, w2, doc2. split; [exact H1|]. split; [exact H2|].
    split; [exact Hst|]. apply Hcount. reflexivity.
Defined.

(** An update whose [contextConversation] key holds [undefined] keeps the
    cached conversation of the question and sets the other key. *)
Lemma updateQuestion_frame_witness :
  exists w2 stored merged,
    updateQuestion "u1" "1700000000003"
      {| Question.p_id := Absent;
         Question.p_status := Absent;
         Question.p_question := Absent;
         Question.p_answers := Absent;
         Question.p_questionExplanation := Present "Waarheen ben je onderweg?";
         Question.p_contextConversation := Undefined;
         Question.p_askedAt := Absent |}
      (worldWith "u1" askedDoc) = (Ok tt, w2) /\
    store w2 !! "u1" = Some stored /\
    questions stored !! 0 = Some lockedQuestion /\
    questions stored !! 1 = Some merged /\
    Question.contextConversation merged = Some "A: Hoi! B: Hallo!" /\
    Question.questionExplanation merged = Some "Waarheen ben je onderweg?".
Proof.
  destruct (updateQuestion_frame "u1" "1700000000003"
              {| Question.p_id := Absent;
                 Question.p_status := Absent;
                 Question.p_question := Absent;
                 Question.p_answers := Absent;
                 Question.p_questionExplanation := Present "Waarheen ben je onderweg?";
                 Question.p_contextConversation := Undefined;
                 Question.p_askedAt := Absent |}
              (worldWith "u1" askedDoc))
    as (userDoc & w1 & w2 & stored & _ & Hraw & Hrun & Hst & _ & Hother & Hsame & _).
  assert (userDoc = askedDoc) as ->
    by (apply Hraw; [reflexivity | repeat constructor]).
  destruct (Hsame 1 askedQuestion) as (merged & Hm & Heq & _);
    [reflexivity | reflexivity |].
  exists w2, stored, merged. split; [exact Hrun|]. split; [exact Hst|].
  split; [by apply Hother|]. split; [exact Hm|]. by rewrite Heq.
Defined.


(** * Further properties *)

(** ** Migration keeps what it does not upgrade *)

(** X1: migration keeps the number and order of the entries and, entry by
    entry, the id, the status and the question text; it keeps the ledger
    and the level of the document; and it carries a non-empty
    [questionExplanation], [contextConversation] and [askedAt] over. *)
Theorem migration_keeps_entries (doc : UserDocument) :
  dailyQuestions (migrateUserDocument doc) = dailyQuestions doc /\
  level (migrateUserDocument doc) = level doc /\
  length (questions (migrateUserDocument doc)) = length (questions doc) /\
  forall i q,
    questions doc !! i = Some q ->
    exists q',
      questions (migrateUserDocument doc) !! i = Some q' /\
      Question.id q' = Question.id q /\
      Question.status q' = Question.status q /\
      Question.question q' = Question.question q /\
      (forall s, s <> "" -> Question.questionExplanation q = Some s ->
                 Question.questionExplanation q' = Some s) /\
      (forall s, s <> "" -> Question.contextConversation q = Some s ->
                 Question.contextConversation q' = Some s) /\
      (forall s, s <> "" -> Question.askedAt q = Some s ->
                 Question.askedAt q' = Some s).
Proof.
  split; [done|]. split; [done|]. split; [apply length_map|].
  intros i q Hi. exists (migrateQuestion q).
  split. { simpl. by rewrite lookup_map, Hi. }
  unfold migrateQuestion.
  destruct (isQuestionV1 q); simpl.
  - destruct (truthy (Question.answer q)), (truthy (Question.answeredAt q)); simpl;
      (do 3 (split; [done|]));
      (split; [|split]); intros txt Htxt ->; unfold copyIfTruthy; by apply truthy_nonempty.
  - by repeat split.
Qed.

(** ** updateQuestion, again *)

Lemma over_again {A} (a : A) (b : option A) : over (over a b) b = over a b.
Proof. by destruct b. Qed.

Lemma spread_again q u :
  Question.spread (Question.spread q u) u = Question.spread q u.
Proof. unfold Question.spread. simpl. f_equal; apply over_again. Qed.

Lemma rewrite_again questionId u (qs : list Question.t) :
  let f := fun q => if Question.idIs questionId q then Question.spread q u else q in
  map f (map f qs) = map f qs.
Proof.
  intros f. rewrite map_map. apply map_ext. intros q. unfold f.
  destruct (Question.idIs questionId q) eqn:E; [|by rewrite E].
  destruct (Question.idIs questionId (Question.spread q u)); [|done].
  apply spread_again.
Qed.

(** X2: [updateQuestion] is idempotent on the store: a second call with the
    same id and the same fields stores the document the first call stored;
    and neither call touches the ledger or the level. *)
Theorem updateQuestion_twice (uid questionId : string)
    (updates : Question.partial field) (w : World) :
  exists userDoc w0 w1 w2 stored,
    getUserDocument uid w = (Ok (Some userDoc), w0) /\
    updateQuestion uid questionId updates w = (Ok tt, w1) /\
    updateQuestion uid questionId updates w1 = (Ok tt, w2) /\
    store w1 !! uid = Some stored /\
    store w2 = store w1 /\
    dailyQuestions stored = dailyQuestions userDoc /\
    level stored = level userDoc.
Proof.
  eexists (loaded uid w), (afterLoad uid w), _, _, _.
  split; [apply getUserDocument_run|].
  split; [apply updateQuestion_run|].
  set (f := fun q => if Question.idIs questionId q
                     then Question.spread q (removeUndefined updates) else q).
  set (data := DocUpdates.mk (Some (map f (questions (loaded uid w)))) None None).
  assert (Hcur : Forall current (questions (applyUpdates (loaded uid w) data))).
  { simpl. pose proof (loaded_current uid w) as Hc.
    induction Hc as [|p ps Hp _ IH]; simpl; constructor; [|done].
    unfold f. destruct (Question.idIs questionId p); [by apply spread_current | done]. }
  destruct (written_reload uid _ data (afterLoad uid w) Hcur) as [Hl Ha].
  rewrite updateQuestion_run, Hl, Ha. fold f.
  split; [done|]. split; [apply written_store|].
  split; [|done]. simpl.
  rewrite (rewrite_again questionId (removeUndefined updates)).
  rewrite insert_insert_eq. done.
Qed.

(** ** The ledger, again *)

(** X3: marking a question leaves the rest of the document alone: the
    questions and the level as they were read, the record of every other
    date, and the list of the other kind on the day itself. *)
Theorem markQuestion_frame (clock : nat -> string) (uid questionId : string)
    (w : World) :
  exists userDoc w0,
    getUserDocument uid w = (Ok (Some userDoc), w0) /\
    (exists w1 doc1,
       markQuestionAsked clock uid questionId w = (Ok tt, w1) /\
       store w1 !! uid = Some doc1 /\
       questions doc1 = questions userDoc /\
       level doc1 = level userDoc /\
       answeredQuestionIds (recordOf doc1 (beforeT (clock (tick w))))
       = answeredQuestionIds (recordOf userDoc (beforeT (clock (tick w)))) /\
       forall date, date <> beforeT (clock (tick w)) ->
                    ledgerOf doc1 !! date = ledgerOf userDoc !! date) /\
    (exists w1 doc1,
       markQuestionAnswered clock uid questionId w = (Ok tt, w1) /\
       store w1 !! uid = Some doc1 /\
       questions doc1 = questions userDoc /\
       level doc1 = level userDoc /\
       askedQuestionIds (recordOf doc1 (beforeT (clock (tick w))))
       = askedQuestionIds (recordOf userDoc (beforeT (clock (tick w)))) /\
       forall date, date <> beforeT (clock (tick w)) ->
                    ledgerOf doc1 !! date = ledgerOf userDoc !! date).
Proof.
  exists (loaded uid w), (afterLoad uid w).
  split; [apply getUserDocument_run|]. split.
  - eexists _, _. rewrite markQuestionAsked_run.
    split; [done|]. split; [apply written_store|].
    split; [done|]. split; [done|]. split.
    + unfold recordOf at 1, ledgerOf at 1. simpl. by rewrite lookup_insert_eq.
    + intros date Hne. unfold ledgerOf at 1. simpl. by rewrite lookup_insert_ne.
  - eexists _, _. rewrite markQuestionAnswered_run.
    split; [done|]. split; [apply written_store|].
    split; [done|]. split; [done|]. split.
    + unfold recordOf at 1, ledgerOf at 1. simpl. by rewrite lookup_insert_eq.
    + intros date Hne. unfold ledgerOf at 1. simpl. by rewrite lookup_insert_ne.
Qed.

Lemma applyUpdates_ledger_current uid w ledger :
  Forall current
    (questions (applyUpdates (loaded uid w) (DocUpdates.mk None (Some ledger) None))).
Proof. simpl. apply loaded_current. Qed.

Lemma ledgerOf_applied doc ledger :
  ledgerOf (applyUpdates doc (DocUpdates.mk None (Some ledger) None)) = ledger.
Proof. reflexivity. Qed.

Lemma recordOf_applied doc ledger today record :
  recordOf (applyUpdates doc (DocUpdates.mk None (Some (<[today := record]> ledger)) None))
           today = record.
Proof. unfold recordOf. by rewrite ledgerOf_applied, lookup_insert_eq. Qed.

Lemma written_tick uid doc data w : tick (written uid doc data w) = tick w.
Proof. reflexivity. Qed.

Lemma ticked_tick w : tick (ticked w) = S (tick w).
Proof. reflexivity. Qed.

Lemma applied_twice doc l1 l2 :
  applyUpdates (applyUpdates doc (DocUpdates.mk None (Some l1) None))
               (DocUpdates.mk None (Some l2) None)
  = applyUpdates doc (DocUpdates.mk None (Some l2) None).
Proof. reflexivity. Qed.

(** X4: on one date the two marks commute: asked then answered stores the
    document that answered then asked stores. *)
Theorem markQuestion_commute (clock : nat -> string) (uid questionId : string)
    (w : World) :
  beforeT (clock (S (tick w))) = beforeT (clock (tick w)) ->
  exists w1 w2 v1 v2,
    markQuestionAsked clock uid questionId w = (Ok tt, w1) /\
    markQuestionAnswered clock uid questionId w1 = (Ok tt, w2) /\
    markQuestionAnswered clock uid questionId w = (Ok tt, v1) /\
    markQuestionAsked clock uid questionId v1 = (Ok tt, v2) /\
    store w2 = store v2.
Proof.
  intros Hsame. eexists _, _, _, _.
  split; [apply markQuestionAsked_run|].
  rewrite markQuestionAnswered_run.
  match goal with
  | |- context [written uid (loaded uid w) (DocUpdates.mk None (Some ?l) None) ?w0] =>
      destruct (written_reload uid (loaded uid w)
                  (DocUpdates.mk None (Some l) None) w0
                  (applyUpdates_ledger_current uid w l)) as [Hl1 Ha1]
  end.
  rewrite Hl1, Ha1. clear Hl1 Ha1.
  split; [done|].
  split; [apply markQuestionAnswered_run|].
  rewrite markQuestionAsked_run.
  match goal with
  | |- context [written uid (loaded uid w) (DocUpdates.mk None (Some ?l) None) ?w0] =>
      destruct (written_reload uid (loaded uid w)
                  (DocUpdates.mk None (Some l) None) w0
                  (applyUpdates_ledger_current uid w l)) as [Hl2 Ha2]
  end.
  rewrite Hl2, Ha2. clear Hl2 Ha2.
  split; [done|].
  rewrite !written_tick, !ticked_tick, !afterLoad_tick, Hsame.
  rewrite !recordOf_applied, !ledgerOf_applied.
  unfold written. cbn [store ticked].
  rewrite !applied_twice, !insert_insert_eq. cbn [askedQuestionIds answeredQuestionIds].
  reflexivity.
Qed.

(** ** The question card, again *)

(** X5: the two answer forms of a card are never rendered together, and on
    a question with an array of answers a form is rendered exactly when no
    answer is correct: the first one while there is no answer, the
    try-again one afterwards. *)
Theorem card_forms (question : Question.t) :
  showsAnswerForm question && showsTryAgainForm question = false /\
  forall l,
    Question.answers question = Some (Arr l) ->
    showsAnswerForm question || showsTryAgainForm question
    = negb (existsb Answer.isCorrect l) /\
    (showsAnswerForm question = true <-> l = []) /\
    (showsTryAgainForm question = true <->
       l <> [] /\ Forall (fun a => Answer.isCorrect a = false) l).
Proof.
  unfold showsAnswerForm, showsTryAgainForm. split.
  - destruct (Question.answers question) as [[l|v]|]; [|apply andb_false_r..].
    by destruct l.
  - intros l ->. destruct l as [|a l]; simpl.
    + split; [done|]. split; [done|]. split; [done|]. by intros [? _].
    + split; [done|]. split; [done|].
      rewrite negb_true_iff, orb_false_iff. split.
      * intros [Ha Hl]. split; [done|]. constructor; [done|].
        apply Forall_forall. intros b Hb.
        destruct (Answer.isCorrect b) eqn:E; [|done].
        assert (existsb Answer.isCorrect l = true); [|congruence].
        apply existsb_exists. exists b. split; [by apply list_elem_of_In | done].
      * intros [_ H]. apply Forall_cons in H as [Ha Hl]. split; [done|].
        destruct (existsb Answer.isCorrect l) eqn:E; [|done].
        apply existsb_exists in E as (b & Hb & Hc).
        rewrite Forall_forall in Hl. apply list_elem_of_In in Hb.
        by rewrite (Hl b Hb) in Hc.
Qed.

Lemma afterSpace_dropSpace {A} s (found : string -> A) none :
  afterSpace s found none
  = match dropSpace s with Some rest => found rest | None => none end.
Proof.
  unfold dropSpace, afterSpace.
  destruct s as [|a [|b [|c r]]]; try done;
    repeat match goal with |- context [if ?b then _ else _] => destruct b end; done.
Qed.

Lemma trimStart_unfold s :
  trimStart s = match dropSpace s with Some rest => trimStart rest | None => s end.
Proof. destruct s; [done|]. apply (afterSpace_dropSpace _ trimStart). Qed.

Lemma blank_unfold s :
  blank s = match s with
            | EmptyString => true
            | _ => match dropSpace s with Some rest => blank rest | None => false end
            end.
Proof. destruct s; [done|]. apply (afterSpace_dropSpace _ blank). Qed.

Lemma dropSpace_shorter s rest :
  dropSpace s = Some rest -> String.length rest < String.length s.
Proof.
  unfold dropSpace, afterSpace.
  destruct s as [|a [|b [|c r]]]; try done;
    repeat match goal with |- context [if ?b then _ else _] => destruct b end;
    intros [= <-]; simpl; lia.
Qed.

Lemma dropSpace_app s rest t :
  dropSpace s = Some rest -> dropSpace (s +:+ t) = Some (rest +:+ t).
Proof.
  unfold dropSpace, afterSpace.
  destruct s as [|a [|b [|c r]]]; simpl; try done;
    repeat match goal with |- context [if ?b then _ else _] => destruct b end;
    try done; by intros [= <-].
Qed.

Lemma by_length (P : string -> Prop) :
  (forall s, (forall t, String.length t < String.length s -> P t) -> P s) ->
  forall s, P s.
Proof.
  intros step s. remember (String.length s) as n eqn:E.
  revert s E. induction n as [n IH] using lt_wf_ind.
  intros s ->. apply step. intros t Ht. by apply (IH (String.length t)).
Qed.

Lemma trimStart_blank s : trimStart s = "" <-> blank s = true.
Proof.
  induction s as [s IH] using by_length.
  rewrite trimStart_unfold, blank_unfold.
  destruct s as [|c s]; [done|].
  destruct (dropSpace (String c s)) as [rest|] eqn:E.
  - by apply IH, dropSpace_shorter.
  - split; discriminate.
Qed.

Lemma trimStart_keeps_blank s : blank (trimStart s) = blank s.
Proof.
  induction s as [s IH] using by_length.
  rewrite trimStart_unfold, (blank_unfold s).
  destruct s as [|c s]; [done|].
  destruct (dropSpace (String c s)) as [rest|] eqn:E.
  - by apply IH, dropSpace_shorter.
  - by rewrite blank_unfold, E.
Qed.

Lemma trimEnd_blank s : trimEnd s = "" <-> blank s = true.
Proof.
  destruct s as [|c s]; [done|].
  change (trimEnd (String c s))
    with (if blank (String c s) then "" else String c (trimEnd s)).
  destruct (blank (String c s)); [done|]. split; discriminate.
Qed.

Lemma trim_blank s : trim s = "" <-> blank s = true.
Proof. unfold trim. by rewrite trimEnd_blank, trimStart_keeps_blank. Qed.

Lemma trimStart_startsClean s : startsClean (trimStart s).
Proof.
  induction s as [s IH] using by_length.
  rewrite trimStart_unfold.
  destruct (dropSpace s) as [rest|] eqn:E; [|done].
  by apply IH, dropSpace_shorter.
Qed.

Lemma trimStart_clean s : startsClean s -> trimStart s = s.
Proof. intros H. rewrite trimStart_unfold. unfold startsClean in H. by rewrite H. Qed.

Lemma trimEnd_split s : exists b, s = trimEnd s +:+ b /\ blank b = true.
Proof.
  induction s as [|c s (b & Hs & Hb)]; [by exists ""|].
  change (trimEnd (String c s))
    with (if blank (String c s) then "" else String c (trimEnd s)).
  destruct (blank (String c s)) eqn:E.
  - by exists (String c s).
  - exists b. split; [|done].
    change (String c s = String c (trimEnd s +:+ b)). by rewrite <- Hs.
Qed.

Lemma blank_app s t : blank s = true -> blank t = true -> blank (s +:+ t) = true.
Proof.
  intros Hs Ht. induction s as [s IH] using by_length.
  destruct s as [|c s]; [done|].
  rewrite blank_unfold in Hs.
  destruct (dropSpace (String c s)) as [rest|] eqn:E; [|done].
  rewrite blank_unfold, (dropSpace_app _ _ t E). simpl.
  apply IH; [by apply dropSpace_shorter | done].
Qed.

Lemma trimEnd_startsClean s : startsClean s -> startsClean (trimEnd s).
Proof.
  unfold startsClean. intros Hs.
  destruct (dropSpace (trimEnd s)) as [rest|] eqn:E; [|done].
  destruct (trimEnd_split s) as (b & Hsplit & _).
  apply (dropSpace_app _ _ b) in E. rewrite <- Hsplit in E. congruence.
Qed.

Lemma trimEnd_again s : trimEnd (trimEnd s) = trimEnd s.
Proof.
  induction s as [|c s IH]; [done|].
  change (trimEnd (String c s))
    with (if blank (String c s) then "" else String c (trimEnd s)).
  destruct (blank (String c s)) eqn:E; [done|].
  change (trimEnd (String c (trimEnd s)))
    with (if blank (String c (trimEnd s)) then "" else String c (trimEnd (trimEnd s))).
  rewrite IH.
  destruct (blank (String c (trimEnd s))) eqn:E'; [|done].
  destruct (trimEnd_split s) as (b & Hsplit & Hb).
  pose proof (blank_app _ _ E' Hb) as H.
  change (blank (String c (trimEnd s +:+ b)) = true) in H.
  rewrite <- Hsplit in H. congruence.
Qed.

Lemma trim_again s : trim (trim s) = trim s.
Proof.
  unfold trim.
  rewrite (trimStart_clean (trimEnd (trimStart s))).
  - apply trimEnd_again.
  - apply trimEnd_startsClean, trimStart_startsClean.
Qed.

(** X6: a blank text never leaves the card: a submit with a text of white
    space only is a no-op whatever the question and the state are, and the
    text [handleSubmit] hands to [onAnswer] is the trimmed one, which is not
    blank and which trimming leaves as it is. *)
Theorem blank_answer_not_submitted (clock : nat -> string)
    (validationService : nat -> string -> string -> option ValidationResponse)
    (question : Question.t) (answer : string) :
  (blank answer = true ->
   handleSubmit question answer = None /\
   forall st w,
     submitOnCard clock validationService question answer st w = (Ok st, w)) /\
  (forall questionId answerText,
     handleSubmit question answer = Some (questionId, answerText) ->
     questionId = Question.id question /\
     answerText = trim answer /\
     blank answerText = false /\
     trim answerText = answerText).
Proof.
  split.
  - intros Hb. apply trim_blank in Hb.
    assert (H : handleSubmit question answer = None).
    { unfold handleSubmit. by rewrite Hb. }
    split; [done|]. intros st w. unfold submitOnCard. rewrite H.
    by destruct (showsAnswerForm question || showsTryAgainForm question).
  - intros questionId answerText. unfold handleSubmit.
    destruct (String.eqb_spec (trim answer) "") as [|Hne]; simpl; [done|].
    intros [= <- <-]. split; [done|]. split; [done|]. split.
    + destruct (blank (trim answer)) eqn:E; [|done].
      apply trim_blank in E. by rewrite trim_again in E.
    + apply trim_again.
Qed.

(** ** handleAnswer, again *)

(** X7: a Submit-Answer whose validation fails writes nothing.  When the
    question text or the answer is empty, or the service fails, the store
    is as before, the cached document is as before, the in-flight marker is
    released, and the trace has gained the one validation call. *)
Theorem handleAnswer_failed_validation (clock : nat -> string)
    (validationService : nat -> string -> string -> option ValidationResponse)
    (uid questionId answerText : string) (st : AppState) (w : World)
    (doc : UserDocument) (q : Question.t) :
  user st = Some uid -> userDoc st = Some doc ->
  truthy (validatingQuestionId st) = None ->
  find (Question.idIs questionId) (questions doc) = Some q ->
  Question.question q = "" \/ answerText = "" \/
    validationService (tick w) (Question.question q) answerText = None ->
  handleAnswer clock validationService questionId answerText st w
  = (Ok {| user := Some uid; userDoc := Some doc; validatingQuestionId := None |},
     {| store := store w;
        trace := trace w ++ [EvValidate (Question.question q) answerText];
        tick := S (tick w) |}).
Proof.
  intros Hu Hd Hv Hf Hfail.
  unfold handleAnswer. rewrite Hu, Hd, Hv.
  unfold tryCatch, handleAnswer_try. run. rewrite Hf.
  unfold validateAnswer at 1. run.
  destruct (String.eqb_spec (Question.question q) "") as [|Hq]; simpl; [done|].
  destruct (String.eqb_spec answerText "") as [|Ha]; simpl; [done|].
  destruct Hfail as [?|[?|Hnone]]; [done|done|]. by rewrite Hnone.
Qed.

(** X8: the guards of [handleAnswer].  Without a signed-in user, without a
    loaded document, with a validation in flight, or for an id that no
    cached question has, the call leaves the world as it is (no validation
    call, no write) and the user and the cached document as they are. *)
Theorem handleAnswer_guarded (clock : nat -> string)
    (validationService : nat -> string -> string -> option ValidationResponse)
    (questionId answerText : string) (st : AppState) (w : World) :
  user st = None \/ userDoc st = None \/
    (exists marker, validatingQuestionId st = Some marker /\ marker <> "") \/
    (forall doc, userDoc st = Some doc ->
                 Forall (fun q => Question.id q <> questionId) (questions doc)) ->
  exists st',
    handleAnswer clock validationService questionId answerText st w = (Ok st', w) /\
    user st' = user st /\ userDoc st' = userDoc st.
Proof.
  intros Hguard. unfold handleAnswer.
  destruct (user st) as [uid|] eqn:Hu; [|by exists st].
  destruct (userDoc st) as [doc|] eqn:Hd; [|by exists st].
  destruct (truthy (validatingQuestionId st)) as [m|] eqn:Hv; [by exists st|].
  destruct Hguard as [?|[?|[(marker & Hm & Hne)|Hno]]]; [done|done|..].
  - rewrite Hm in Hv. by rewrite (truthy_nonempty _ Hne) in Hv.
  - assert (Hf : find (Question.idIs questionId) (questions doc) = None).
    { specialize (Hno doc eq_refl).
      induction Hno as [|p ps Hp _ IH]; simpl; [done|].
      unfold Question.idIs at 1.
      by destruct (String.eqb_spec (Question.id p) questionId). }
    unfold tryCatch, handleAnswer_try. run. rewrite Hf.
    eexists. split; [reflexivity|]. done.
Qed.

Lemma find_map_same_id questionId (f : Question.t -> Question.t)
    (qs : list Question.t) (q : Question.t) :
  (forall p, Question.id (f p) = Question.id p) ->
  find (Question.idIs questionId) qs = Some q ->
  find (Question.idIs questionId) (map f qs) = Some (f q).
Proof.
  intros Hid. induction qs as [|p ps IH]; simpl; [done|].
  unfold Question.idIs at 1 3. rewrite Hid.
  destruct (String.eqb (Question.id p) questionId); [by intros [= ->] | done].
Qed.

Lemma handleAnswer_first_run clock validationService
    uid questionId answerText st w doc q r :
  user st = Some uid -> userDoc st = Some doc ->
  store w !! uid = Some doc -> Forall current (questions doc) ->
  truthy (validatingQuestionId st) = None ->
  find (Question.idIs questionId) (questions doc) = Some q ->
  Question.answers q = Some (Arr []) ->
  Question.question q <> "" -> answerText <> "" ->
  validationService (tick w) (Question.question q) answerText = Some r ->
  let today := beforeT (clock (S (S (tick w)))) in
  exists w' doc',
    handleAnswer clock validationService questionId answerText st w
    = (Ok {| user := Some uid; userDoc := Some doc'; validatingQuestionId := None |},
       w') /\
    store w' !! uid = Some doc' /\
    ledgerOf doc' =
      <[today := {| askedQuestionIds := askedQuestionIds (recordOf doc today);
                    answeredQuestionIds :=
                      pushNew questionId (answeredQuestionIds (recordOf doc today)) |}]>
        (ledgerOf doc).
Proof.
  intros Hu Hd Hs Hc Hv Hf Ha Hq Ht Hr today.
  unfold handleAnswer. rewrite Hu, Hd, Hv.
  unfold tryCatch, handleAnswer_try. run. rewrite Hf.
  unfold validateAnswer at 1. run.
  destruct (String.eqb_spec (Question.question q) "") as [|_]; [done|].
  destruct (String.eqb_spec answerText "") as [|_]; [done|].
  simpl. rewrite Hr. unfold existingAnswersOf. rewrite Ha. run.
  set (w2 := {| store := store w;
                trace := trace w ++ [EvValidate (Question.question q) answerText];
                tick := S (S (tick w)) |}).
  destruct (loaded_stable uid w2 doc Hs Hc) as [Hl2 Ha2].
  rewrite updateQuestion_run, Hl2, Ha2.
  match goal with
  | |- context [written uid doc ?d w2] => set (data := d)
  end.
  assert (Hcur : Forall current (questions (applyUpdates doc data))).
  { simpl. clear -Hc.
    induction Hc as [|p ps Hp _ IH]; simpl; constructor; [|done].
    destruct (Question.idIs questionId p); [by apply spread_current | done]. }
  destruct (written_reload uid doc data w2 Hcur) as [Hl3 Ha3].
  rewrite markQuestionAnswered_run, Hl3, Ha3.
  match goal with
  | |- context [written uid (applyUpdates doc data) ?d ?w0] =>
      set (data' := d); set (w3 := w0)
  end.
  assert (Hcur' : Forall current (questions (applyUpdates (applyUpdates doc data) data')))
    by done.
  destruct (written_reload uid _ data' w3 Hcur') as [Hl4 Ha4].
  rewrite getUserDocument_run, Hl4, Ha4. simpl.
  eexists _, _. split; [reflexivity|].
  split; [apply written_store|]. reflexivity.
Qed.

(** X9: the first accepted answer to a question records its id under the
    day's [answeredQuestionIds] and leaves the day's [askedQuestionIds] and
    every other date alone; an accepted answer to a question that already
    has answers leaves the whole ledger alone. *)
Theorem handleAnswer_ledger (clock : nat -> string)
    (validationService : nat -> string -> string -> option ValidationResponse)
    (uid questionId answerText : string) (st : AppState) (w : World)
    (doc : UserDocument) (q : Question.t) (l : list Answer.t)
    (r : ValidationResponse) :
  user st = Some uid -> userDoc st = Some doc ->
  store w !! uid = Some doc -> Forall current (questions doc) ->
  truthy (validatingQuestionId st) = None ->
  find (Question.idIs questionId) (questions doc) = Some q ->
  Question.answers q = Some (Arr l) ->
  Question.question q <> "" -> answerText <> "" ->
  validationService (tick w) (Question.question q) answerText = Some r ->
  exists st' w' doc',
    handleAnswer clock validationService questionId answerText st w = (Ok st', w') /\
    userDoc st' = Some doc' /\ store w' !! uid = Some doc' /\
    (l <> [] -> dailyQuestions doc' = dailyQuestions doc) /\
    (l = [] ->
     let today := beforeT (clock (S (S (tick w)))) in
     questionId ∈ answeredQuestionIds (recordOf doc' today) /\
     askedQuestionIds (recordOf doc' today) = askedQuestionIds (recordOf doc today) /\
     forall date, date <> today -> ledgerOf doc' !! date = ledgerOf doc !! date).
Proof.
  intros Hu Hd Hs Hc Hv Hf Ha Hq Ht Hr.
  destruct l as [|a0 l0].
  - destruct (handleAnswer_first_run clock validationService uid questionId
                answerText st w doc q r Hu Hd Hs Hc Hv Hf Ha Hq Ht Hr)
      as (w' & doc' & Hrun & Hst & Hledger).
    eexists _, w', doc'. split; [exact Hrun|].
    split; [done|]. split; [done|]. split; [done|].
    intros _ today. unfold recordOf. rewrite Hledger, lookup_insert_eq. simpl.
    split; [apply pushNew_elem|]. split; [done|].
    intros date Hne. by rewrite lookup_insert_ne.
  - destruct (handleAnswer_accepted clock validationService uid questionId
                answerText st w doc q (a0 :: l0) r Hu Hd Hs Hc Hv Hf Ha Hq Ht Hr)
      as (w' & doc' & Hrun & Hst & _ & _ & Hsame & _).
    eexists _, w', doc'. split; [exact Hrun|].
    split; [done|]. split; [done|]. split; [by intros _; apply Hsame|]. done.
Qed.

(** X10: the text area after a submission from the card.  Once the answer
    typed into a card has been accepted, the effect that watches the
    answers clears the text when the verdict is correct and keeps it for
    another try when it is not; while a validation is in flight it keeps
    it. *)
Theorem text_area_after_submit (clock : nat -> string)
    (validationService : nat -> string -> string -> option ValidationResponse)
    (uid typed : string) (st : AppState) (w : World)
    (doc : UserDocument) (q : Question.t) (l : list Answer.t)
    (r : ValidationResponse) :
  user st = Some uid -> userDoc st = Some doc ->
  store w !! uid = Some doc -> Forall current (questions doc) ->
  NoDup (map Question.id (questions doc)) ->
  truthy (validatingQuestionId st) = None ->
  q ∈ questions doc -> Question.answers q = Some (Arr l) ->
  existsb Answer.isCorrect l = false ->
  Question.question q <> "" -> blank typed = false ->
  validationService (tick w) (Question.question q) (trim typed) = Some r ->
  exists st' w' doc' q',
    submitOnCard clock validationService q typed st w = (Ok st', w') /\
    userDoc st' = Some doc' /\
    find (Question.idIs (Question.id q)) (questions doc') = Some q' /\
    clearAnswerEffect false q' typed = (if correct r then "" else typed) /\
    clearAnswerEffect true q' typed = typed.
Proof.
  intros Hu Hd Hs Hc Hnd Hv Hin Ha Hnone Hq Hb Hr.
  assert (Htrim : trim typed <> "").
  { intros H. apply trim_blank in H. congruence. }
  pose proof (find_unique _ _ Hnd Hin) as Hf.
  destruct (handleAnswer_accepted clock validationService uid (Question.id q)
              (trim typed) st w doc q l r Hu Hd Hs Hc Hv Hf Ha Hq Htrim Hr)
    as (w' & doc' & Hrun & Hst & Hqs & _).
  eexists _, w', doc', _.
  split.
  { unfold submitOnCard, showsAnswerForm, showsTryAgainForm, handleSubmit.
    rewrite Ha, Hnone. simpl.
    destruct (String.eqb_spec (trim typed) "") as [|_]; [done|]. simpl.
    destruct l; simpl; exact Hrun. }
  split; [done|]. split.
  { rewrite Hqs. apply find_map_same_id; [|exact Hf].
    intros p. by destruct (Question.idIs (Question.id q) p). }
  unfold Question.idIs. rewrite String.eqb_refl.
  unfold clearAnswerEffect. simpl. rewrite last_snoc. simpl.
  rewrite String.eqb_refl, andb_true_r. done.
Qed.

(** ** The generate-question handler, again *)

Module GenerateQuestionMore.
Import GenerateQuestion.

Section More.

Variable getTime : string -> option Z.
Variable generateContent : string -> option string.

Ltac step := unfold mbind, mret, Result_bind, Result_ret; simpl.

Lemma filter_again {A} (p : A -> bool) (l : list A) :
  List.filter p (List.filter p l) = List.filter p l.
Proof.
  induction l as [|x l IH]; simpl; [done|].
  destruct (p x) eqn:E; simpl; [by rewrite E, IH | done].
Qed.

(** X11: only the answered questions of a request count.  The handler
    answers a request as it answers the request that carries the answered
    questions alone, so a question that is not answered, whatever its
    answers are, neither shows in the prompt nor makes the handler fail. *)
Theorem handler_ignores_unanswered (req : Request) :
  handler getTime generateContent req
  = handler getTime generateContent
      {| method := method req;
         answeredQuestions := List.filter isAnswered <$> answeredQuestions req;
         currentLevel := currentLevel req |}.
Proof.
  unfold handler, handler_try. simpl.
  destruct (negb (String.eqb (method req) "POST")); [done|].
  destruct (answeredQuestions req) as [qs|]; simpl; [|done].
  destruct (truthy (currentLevel req)); [|done].
  unfold conversationHistory. fold isAnswered.
  change (fun q => Status_eqb (Question.status q) StatusAnswered) with isAnswered.
  by rewrite filter_again.
Qed.

Lemma renderAll_lines (l : list Question.t) :
  Forall (fun q => exists z, timed getTime q z) l ->
  exists lines,
    renderAll l = Ok lines /\
    Forall2 (fun q line => exists a, lastAnswer q = Ok a /\ line = historyLine q a)
            l lines.
Proof.
  induction 1 as [|q qs [z Hz] _ (lines & Hlines & Hall)]; simpl.
  - by exists [].
  - unfold timed, timeOf in Hz. revert Hz. step.
    destruct (lastAnswer q) as [a|] eqn:Ea; [|done]. intros _.
    rewrite Hlines. eexists. split; [reflexivity|].
    constructor; [|done]. by exists a.
Qed.

(** X12: where every answered question has a last answer whose timestamp
    is empty or parses, the history is built without failure: it joins,
    with a blank line between them, one line per answered question, each
    showing the question and its last answer, in the order of the times of
    those answers (an empty timestamp counting as time zero). *)
Theorem conversationHistory_chronological (answeredQuestions : list Question.t) :
  Forall (fun q => isAnswered q = true -> exists z, timed getTime q z)
         answeredQuestions ->
  exists sorted lines,
    sorted ≡ₚ List.filter isAnswered answeredQuestions /\
    chronological getTime sorted /\
    Forall2 (fun q line => exists a, lastAnswer q = Ok a /\ line = historyLine q a)
            sorted lines /\
    conversationHistory getTime answeredQuestions
    = Ok (join (newline +:+ newline) lines).
Proof.
  intros Hall.
  assert (Htimed : Forall (fun q => exists z, timed getTime q z)
                          (List.filter isAnswered answeredQuestions)).
  { apply Forall_forall. intros q Hq.
    apply list_elem_of_In, filter_In in Hq as [Hq Ha].
    rewrite Forall_forall in Hall. apply Hall; [by apply list_elem_of_In | done]. }
  destruct (GenerateQuestionFacts.sort_chronological getTime _ Htimed)
    as (sorted & Hsort & Hperm & Hchron).
  assert (Htimed' : Forall (fun q => exists z, timed getTime q z) sorted)
    by (by rewrite Hperm).
  destruct (renderAll_lines sorted Htimed') as (lines & Hlines & Hforall).
  exists sorted, lines. split; [done|]. split; [done|]. split; [done|].
  unfold conversationHistory.
  change (fun q => Status_eqb (Question.status q) StatusAnswered) with isAnswered.
  rewrite Hsort. step. by rewrite Hlines.
Qed.

End More.

End GenerateQuestionMore.

(** ** The date of the ledger *)

Lemma beforeT_date (date time : string) :
  ~ In "T"%char (list_ascii_of_string date) ->
  beforeT (date +:+ "T" +:+ time) = date.
Proof.
  induction date as [|c date IH]; simpl; [done|].
  intros Hno. destruct (Ascii.eqb_spec c "T") as [->|_].
  - destruct Hno. by left.
  - f_equal. apply IH. intros H. apply Hno. by right.
Qed.

(** X13: the key of the ledger is the date part of the instant.  When the
    clock reads an ISO instant, a date free of the letter T, then T, then
    the time, [getTodayDate] yields that date, and [markQuestionAsked]
    files the id under it. *)
Theorem ledger_key_is_date (clock : nat -> string) (uid questionId : string)
    (w : World) (date time : string) :
  clock (tick w) = date +:+ "T" +:+ time ->
  ~ In "T"%char (list_ascii_of_string date) ->
  getTodayDate clock w = (Ok date, ticked w) /\
  exists w1 doc1 record,
    markQuestionAsked clock uid questionId w = (Ok tt, w1) /\
    store w1 !! uid = Some doc1 /\
    ledgerOf doc1 !! date = Some record /\
    questionId ∈ askedQuestionIds record.
Proof.
  intros Hclock Hdate. split.
  - unfold getTodayDate, newDateISO. run. by rewrite Hclock, beforeT_date.
  - eexists _, _, _. rewrite markQuestionAsked_run.
    split; [done|]. split; [apply written_store|].
    rewrite Hclock, beforeT_date by done.
    unfold ledgerOf at 1. simpl. split; [apply lookup_insert_eq|].
    apply pushNew_elem.
Qed.

(** ** Filling the context and the explanation of a question *)

Section Fill.

Variable clock : nat -> string.
Variable dateNow : nat -> N.
Variable getTime : string -> option Z.
Variable generateContent : nat -> string -> option string.

Lemma generateContext_ok question level w text :
  question <> "" -> level <> "" ->
  generateContent (tick w) (GenerateContext.prompt question level) = Some text ->
  text <> "" ->
  generateContext generateContent question level w = (Ok (trim text), ticked w).
Proof.
  intros Hq Hl Hg Ht. unfold generateContext, GenerateContext.handler. simpl.
  destruct (String.eqb_spec question "") as [|_]; [done|].
  destruct (String.eqb_spec level "") as [|_]; [done|].
  rewrite Hg. simpl. by destruct (String.eqb_spec text "").
Qed.

Lemma generateContext_ticks question level w :
  exists r, generateContext generateContent question level w = (r, ticked w).
Proof.
  unfold generateContext.
  destruct (statusOk _); destruct (TextHandler.json _); by eexists.
Qed.

Lemma explainQuestion_ok question level w text :
  question <> "" -> level <> "" ->
  generateContent (tick w) (ExplainQuestion.prompt question level) = Some text ->
  text <> "" ->
  explainQuestion generateContent question level w = (Ok (trim text), ticked w).
Proof.
  intros Hq Hl Hg Ht. unfold explainQuestion, ExplainQuestion.handler. simpl.
  destruct (String.eqb_spec question "") as [|_]; [done|].
  destruct (String.eqb_spec level "") as [|_]; [done|].
  rewrite Hg. simpl. by destruct (String.eqb_spec text "").
Qed.

Lemma explainQuestion_ticks question level w :
  exists r, explainQuestion generateContent question level w = (r, ticked w).
Proof.
  unfold explainQuestion.
  destruct (statusOk _); destruct (TextHandler.json _); by eexists.
Qed.

Lemma setUserDoc_same st doc :
  userDoc st = Some doc -> setUserDoc (Some doc) st = st.
Proof. destruct st. simpl. by intros ->. Qed.

Lemma map_current_spread questionId u (qs : list Question.t) :
  Forall current qs ->
  Forall current
    (map (fun q => if Question.idIs questionId q then Question.spread q u else q) qs).
Proof.
  induction 1 as [|p ps Hp _ IH]; simpl; constructor; [|done].
  destruct (Question.idIs questionId p); [by apply spread_current | done].
Qed.

(** X14: the context of a question is a cache.  When the cached question
    already holds a non-empty [contextConversation], [handleGenerateContext]
    leaves the world as it is (the service is not called, nothing is
    written) and the cached document as it is. *)
Theorem handleGenerateContext_cached (uid questionId : string) (s : AppFlags)
    (w : World) (doc : UserDocument) (q : Question.t) (conversation : string) :
  user (base s) = Some uid -> userDoc (base s) = Some doc ->
  find (Question.idIs questionId) (questions doc) = Some q ->
  Question.contextConversation q = Some conversation -> conversation <> "" ->
  exists s',
    handleGenerateContext generateContent questionId s w = (Ok s', w) /\
    base s' = base s.
Proof.
  intros Hu Hd Hf Hc Hne. unfold handleGenerateContext. rewrite Hu, Hd.
  destruct (truthy (generatingContextId s)); [by exists s|].
  unfold tryCatch, handleGenerateContext_try. run.
  rewrite Hf, Hc, (truthy_nonempty _ Hne). simpl.
  eexists. split; [reflexivity|]. simpl. by apply setUserDoc_same.
Qed.

Lemma handleGenerateContext_run uid questionId s w doc q text :
  user (base s) = Some uid -> userDoc (base s) = Some doc ->
  store w !! uid = Some doc -> Forall current (questions doc) ->
  truthy (generatingContextId s) = None ->
  find (Question.idIs questionId) (questions doc) = Some q ->
  truthy (Question.contextConversation q) = None ->
  Question.question q <> "" -> level doc <> "" ->
  generateContent (tick w)
    (GenerateContext.prompt (Question.question q) (level doc)) = Some text ->
  text <> "" ->
  let doc' :=
    {| questions :=
         map (fun p => if Question.idIs questionId p
                       then withContext (trim text) p else p)
             (questions doc);
       dailyQuestions := dailyQuestions doc;
       level := level doc |} in
  exists w',
    handleGenerateContext generateContent questionId s w
    = (Ok {| base := setUserDoc (Some doc') (base s);
             generatingQuestion := generatingQuestion s;
             explainingQuestionId := explainingQuestionId s;
             generatingContextId := None |}, w') /\
    store w' !! uid = Some doc' /\ tick w' = S (tick w) /\
    Forall current (questions doc').
Proof.
  intros Hu Hd Hs Hc Hv Hf Hnone Hq Hl Hg Ht doc'.
  unfold handleGenerateContext. rewrite Hu, Hd, Hv.
  unfold tryCatch, handleGenerateContext_try. run. rewrite Hf, Hnone.
  run. rewrite (generateContext_ok _ _ _ _ Hq Hl Hg Ht).
  assert (Hs' : store (ticked w) !! uid = Some doc) by done.
  destruct (loaded_stable uid (ticked w) doc Hs' Hc) as [Hl2 Ha2].
  rewrite updateQuestion_run, Hl2, Ha2.
  match goal with
  | |- context [written uid doc ?d (ticked w)] => set (data := d)
  end.
  assert (Hdoc : applyUpdates doc data = doc') by done.
  assert (Hcur : Forall current (questions (applyUpdates doc data))).
  { simpl. by apply map_current_spread. }
  destruct (written_reload uid doc data (ticked w) Hcur) as [Hl3 Ha3].
  rewrite getUserDocument_run, Hl3, Ha3. simpl.
  eexists. split; [reflexivity|].
  split; [apply written_store|]. split; [done|]. by rewrite Hdoc in Hcur.
Qed.

(** X15: a successful [handleGenerateContext] stores the trimmed reply of
    the model as the [contextConversation] of the question and changes
    nothing else: the other fields of the question, the other questions,
    the ledger and the level stay.  If that reply is not blank, a second
    call for the question is a no-op: the service is asked at most once. *)
Theorem handleGenerateContext_stores (uid questionId : string) (s : AppFlags)
    (w : World) (doc : UserDocument) (q : Question.t) (text : string) :
  user (base s) = Some uid -> userDoc (base s) = Some doc ->
  store w !! uid = Some doc -> Forall current (questions doc) ->
  truthy (generatingContextId s) = None ->
  find (Question.idIs questionId) (questions doc) = Some q ->
  truthy (Question.contextConversation q) = None ->
  Question.question q <> "" -> level doc <> "" ->
  generateContent (tick w)
    (GenerateContext.prompt (Question.question q) (level doc)) = Some text ->
  text <> "" ->
  exists s' w' doc',
    handleGenerateContext generateContent questionId s w = (Ok s', w') /\
    userDoc (base s') = Some doc' /\ store w' !! uid = Some doc' /\
    generatingContextId s' = None /\
    questions doc' =
      map (fun p => if Question.idIs questionId p
                    then withContext (trim text) p else p)
          (questions doc) /\
    dailyQuestions doc' = dailyQuestions doc /\
    level doc' = level doc /\
    (blank text = false ->
     handleGenerateContext generateContent questionId s' w' = (Ok s', w')).
Proof.
  intros Hu Hd Hs Hc Hv Hf Hnone Hq Hl Hg Ht.
  destruct (handleGenerateContext_run uid questionId s w doc q text
              Hu Hd Hs Hc Hv Hf Hnone Hq Hl Hg Ht) as (w' & Hrun & Hst & _ & _).
  eexists _, w', _. split; [exact Hrun|]. simpl.
  split; [done|]. split; [done|]. split; [done|]. split; [done|].
  split; [done|]. split; [done|].
  intros Hb. unfold handleGenerateContext. simpl. rewrite Hu.
  unfold tryCatch, handleGenerateContext_try. run.
  rewrite (find_map_same_id questionId _ _ q) by
    (first [exact Hf | intros p; by destruct (Question.idIs questionId p)]).
  assert (Hq' : Question.idIs questionId q = true).
  { apply find_some in Hf. apply Hf. }
  rewrite Hq'. simpl.
  destruct (String.eqb_spec (trim text) "") as [He|_].
  - apply trim_blank in He. congruence.
  - done.
Qed.

(** X17: the explanation of a question is a cache.  When the cached
    question already holds a non-empty [questionExplanation],
    [handleExplain] leaves the world as it is (the service is not called,
    nothing is written) and the cached document as it is. *)
Theorem handleExplain_cached (uid questionId : string) (s : AppFlags)
    (w : World) (doc : UserDocument) (q : Question.t) (explained : string) :
  user (base s) = Some uid -> userDoc (base s) = Some doc ->
  find (Question.idIs questionId) (questions doc) = Some q ->
  Question.questionExplanation q = Some explained -> explained <> "" ->
  exists s',
    handleExplain generateContent questionId s w = (Ok s', w) /\
    base s' = base s.
Proof.
  intros Hu Hd Hf Hc Hne. unfold handleExplain. rewrite Hu, Hd.
  destruct (truthy (explainingQuestionId s)); [by exists s|].
  unfold tryCatch, handleExplain_try. run.
  rewrite Hf, Hc, (truthy_nonempty _ Hne). simpl.
  eexists. split; [reflexivity|]. simpl. by apply setUserDoc_same.
Qed.

Lemma handleExplain_run uid questionId s w doc q text :
  user (base s) = Some uid -> userDoc (base s) = Some doc ->
  store w !! uid = Some doc -> Forall current (questions doc) ->
  truthy (explainingQuestionId s) = None ->
  find (Question.idIs questionId) (questions doc) = Some q ->
  truthy (Question.questionExplanation q) = None ->
  Question.question q <> "" -> level doc <> "" ->
  generateContent (tick w)
    (ExplainQuestion.prompt (Question.question q) (level doc)) = Some text ->
  text <> "" ->
  let doc' :=
    {| questions :=
         map (fun p => if Question.idIs questionId p
                       then withExplanation (trim text) p else p)
             (questions doc);
       dailyQuestions := dailyQuestions doc;
       level := level doc |} in
  exists w',
    handleExplain generateContent questionId s w
    = (Ok {| base := setUserDoc (Some doc') (base s);
             generatingQuestion := generatingQuestion s;
             explainingQuestionId := None;
             generatingContextId := generatingContextId s |}, w') /\
    store w' !! uid = Some doc' /\ tick w' = S (tick w) /\
    Forall current (questions doc').
Proof.
  intros Hu Hd Hs Hc Hv Hf Hnone Hq Hl Hg Ht doc'.
  unfold handleExplain. rewrite Hu, Hd, Hv.
  unfold tryCatch, handleExplain_try. run. rewrite Hf, Hnone.
  run. rewrite (explainQuestion_ok _ _ _ _ Hq Hl Hg Ht).
  assert (Hs' : store (ticked w) !! uid = Some doc) by done.
  destruct (loaded_stable uid (ticked w) doc Hs' Hc) as [Hl2 Ha2].
  rewrite updateQuestion_run, Hl2, Ha2.
  match goal with
  | |- context [written uid doc ?d (ticked w)] => set (data := d)
  end.
  assert (Hdoc : applyUpdates doc data = doc') by done.
  assert (Hcur : Forall current (questions (applyUpdates doc data))).
  { simpl. by apply map_current_spread. }
  destruct (written_reload uid doc data (ticked w) Hcur) as [Hl3 Ha3].
  rewrite getUserDocument_run, Hl3, Ha3. simpl.
  eexists. split; [reflexivity|].
  split; [apply written_store|]. split; [done|]. by rewrite Hdoc in Hcur.
Qed.

(** X18: a successful [handleExplain] stores the trimmed reply of the model
    as the [questionExplanation] of the question and changes nothing else:
    the other fields of the question, the other questions, the ledger and
    the level stay.  If that reply is not blank, a second call for the
    question is a no-op: the service is asked at most once. *)
Theorem handleExplain_stores (uid questionId : string) (s : AppFlags)
    (w : World) (doc : UserDocument) (q : Question.t) (text : string) :
  user (base s) = Some uid -> userDoc (base s) = Some doc ->
  store w !! uid = Some doc -> Forall current (questions doc) ->
  truthy (explainingQuestionId s) = None ->
  find (Question.idIs questionId) (questions doc) = Some q ->
  truthy (Question.questionExplanation q) = None ->
  Question.question q <> "" -> level doc <> "" ->
  generateContent (tick w)
    (ExplainQuestion.prompt (Question.question q) (level doc)) = Some text ->
  text <> "" ->
  exists s' w' doc',
    handleExplain generateContent questionId s w = (Ok s', w') /\
    userDoc (base s') = Some doc' /\ store w' !! uid = Some doc' /\
    explainingQuestionId s' = None /\
    questions doc' =
      map (fun p => if Question.idIs questionId p
                    then withExplanation (trim text) p else p)
          (questions doc) /\
    dailyQuestions doc' = dailyQuestions doc /\
    level doc' = level doc /\
    (blank text = false ->
     handleExplain generateContent questionId s' w' = (Ok s', w')).
Proof.
  intros Hu Hd Hs Hc Hv Hf Hnone Hq Hl Hg Ht.
  destruct (handleExplain_run uid questionId s w doc q text
              Hu Hd Hs Hc Hv Hf Hnone Hq Hl Hg Ht) as (w' & Hrun & Hst & _ & _).
  eexists _, w', _. split; [exact Hrun|]. simpl.
  split; [done|]. split; [done|]. split; [done|]. split; [done|].
  split; [done|]. split; [done|].
  intros Hb. unfold handleExplain. simpl. rewrite Hu.
  unfold tryCatch, handleExplain_try. run.
  rewrite (find_map_same_id questionId _ _ q) by
    (first [exact Hf | intros p; by destruct (Question.idIs questionId p)]).
  assert (Hq' : Question.idIs questionId q = true).
  { apply find_some in Hf. apply Hf. }
  rewrite Hq'. simpl.
  destruct (String.eqb_spec (trim text) "") as [He|_].
  - apply trim_blank in He. congruence.
  - done.
Qed.


End Fill.

(** ** New questions and the level *)

Section NewQuestion.

Variable clock : nat -> string.
Variable dateNow : nat -> N.
Variable getTime : string -> option Z.
Variable generateContent : nat -> string -> option string.

Lemma conversationHistory_filter qs :
  GenerateQuestion.conversationHistory getTime (List.filter isAnswered qs)
  = GenerateQuestion.conversationHistory getTime qs.
Proof.
  unfold GenerateQuestion.conversationHistory.
  change (fun q => Status_eqb (Question.status q) StatusAnswered) with isAnswered.
  by rewrite GenerateQuestionMore.filter_again.
Qed.

Lemma generateQuestion_ok qs lvl w history text :
  GenerateQuestion.conversationHistory getTime qs = Ok history ->
  lvl <> "" ->
  generateContent (tick w) (GenerateQuestion.prompt lvl history) = Some text ->
  text <> "" ->
  generateQuestion getTime generateContent qs lvl w = (Ok (trim text), ticked w).
Proof.
  intros Hh Hl Hg Ht.
  unfold generateQuestion, GenerateQuestion.handler, GenerateQuestion.handler_try.
  simpl. destruct (String.eqb_spec lvl "") as [|_]; [done|].
  rewrite Hh. simpl. rewrite Hg. simpl.
  by destruct (String.eqb_spec text "").
Qed.

Lemma generateQuestion_throws qs lvl w :
  (exists e, GenerateQuestion.conversationHistory getTime qs = Throw e) \/
  lvl = "" \/
  (exists history,
     GenerateQuestion.conversationHistory getTime qs = Ok history /\
     (generateContent (tick w) (GenerateQuestion.prompt lvl history) = None \/
      generateContent (tick w) (GenerateQuestion.prompt lvl history) = Some "")) ->
  exists e, generateQuestion getTime generateContent qs lvl w = (Throw e, ticked w).
Proof.
  intros Hfail.
  unfold generateQuestion, GenerateQuestion.handler, GenerateQuestion.handler_try.
  simpl. destruct (String.eqb_spec lvl "") as [|Hl]; simpl; [by eexists|].
  destruct Hfail as [[e He]|[?|(history & Hh & Hg)]]; [|done|].
  - rewrite He. simpl. by eexists.
  - rewrite Hh. simpl. destruct Hg as [-> | ->]; simpl; by eexists.
Qed.

Lemma handleNewQuestion_run uid s w doc history text :
  user (base s) = Some uid -> userDoc (base s) = Some doc ->
  store w !! uid = Some doc -> Forall current (questions doc) ->
  generatingQuestion s = false ->
  GenerateQuestion.conversationHistory getTime (questions doc) = Ok history ->
  level doc <> "" ->
  generateContent (tick w) (GenerateQuestion.prompt (level doc) history) = Some text ->
  text <> "" ->
  let newQuestion :=
    askedNow (pretty (dateNow (S (tick w)))) (trim text) (clock (S (S (tick w)))) in
  let today := beforeT (clock (S (S (S (tick w))))) in
  let doc' :=
    {| questions := questions doc ++ [newQuestion];
       dailyQuestions :=
         Some (<[today :=
                   {| askedQuestionIds :=
                        pushNew (Question.id newQuestion)
                                (askedQuestionIds (recordOf doc today));
                      answeredQuestionIds := answeredQuestionIds (recordOf doc today) |}]>
                 (ledgerOf doc));
       level := level doc |} in
  exists w',
    handleNewQuestion clock dateNow getTime generateContent s w
    = (Ok (withDoc doc' s), w') /\
    store w' !! uid = Some doc' /\
    tick w' = S (S (S (S (tick w)))).
Proof.
  intros Hu Hd Hs Hc Hg Hh Hl Hgen Ht newQuestion today doc'.
  unfold handleNewQuestion. rewrite Hu, Hd, Hg.
  unfold tryCatch, handleNewQuestion_try. run.
  fold isAnswered.
  change (fun q => Status_eqb (Question.status q) StatusAnswered) with isAnswered.
  rewrite <- conversationHistory_filter in Hh.
  rewrite (generateQuestion_ok _ _ _ _ _ Hh Hl Hgen Ht).
  simpl. fold (askedNow (pretty (dateNow (S (tick w)))) (trim text)
                        (clock (S (S (tick w))))).
  fold newQuestion.
  set (w3 := {| store := store w; trace := trace w; tick := S (S (S (tick w))) |}).
  destruct (loaded_stable uid w3 doc Hs Hc) as [Hl3 Ha3].
  rewrite addQuestion_run, Hl3, Ha3.
  set (data := DocUpdates.mk (Some (questions doc ++ [newQuestion])) None None).
  assert (Hcur : Forall current (questions (applyUpdates doc data))).
  { simpl. apply Forall_app. split; [done|]. by constructor. }
  destruct (written_reload uid doc data w3 Hcur) as [Hl4 Ha4].
  rewrite markQuestionAsked_run, Hl4, Ha4.
  match goal with
  | |- context [written uid (applyUpdates doc data) ?d ?w0] =>
      set (data' := d); set (w4 := w0)
  end.
  assert (Hcur' : Forall current (questions (applyUpdates (applyUpdates doc data) data')))
    by done.
  destruct (written_reload uid _ data' w4 Hcur') as [Hl5 Ha5].
  rewrite getUserDocument_run, Hl5, Ha5. simpl.
  unfold withDoc. rewrite Hg.
  eexists. split; [reflexivity|].
  split; [apply written_store|]. done.
Qed.



(** X21: one answered question without answers blocks new questions.  While
    the cached document holds a question with status answered and an empty
    array of answers (what migration makes of a legacy entry that is
    answered but has no answer), no [handleNewQuestion] adds a question:
    whatever the model and the clock are, the store stays as it is. *)
Theorem handleNewQuestion_blocked (uid : string) (s : AppFlags) (w : World)
    (doc : UserDocument) (q : Question.t) :
  user (base s) = Some uid -> userDoc (base s) = Some doc ->
  q ∈ questions doc ->
  Question.status q = StatusAnswered ->
  Question.answers q = Some (Arr []) ->
  exists s' w',
    handleNewQuestion clock dateNow getTime generateContent s w = (Ok s', w') /\
    store w' = store w /\ trace w' = trace w /\
    userDoc (base s') = Some doc.
Proof.
  intros Hu Hd Hq Hstatus Hanswers.
  unfold handleNewQuestion. rewrite Hu, Hd.
  destruct (generatingQuestion s) eqn:Hg; [by exists s, w|].
  unfold tryCatch, handleNewQuestion_try. run.
  change (fun q => Status_eqb (Question.status q) StatusAnswered) with isAnswered.
  destruct (generateQuestion_throws (List.filter isAnswered (questions doc))
              (level doc) w) as [e ->].
  { left. rewrite conversationHistory_filter.
    apply (GenerateQuestionFacts.conversationHistory_throws getTime _ q);
      [exact Hq | exact Hstatus | exact Hanswers]. }
  by eexists _, _.
Qed.

(** X22: changing the level touches the level only.  With a stored
    document, [handleLevelChange] stores the new level, leaves the ledger
    alone, leaves the questions alone apart from their upgrade to the
    current shape, and caches what it stored. *)
Theorem handleLevelChange_level_only (uid newLevel : string) (st : AppState)
    (w : World) (rawDoc : UserDocument) :
  user st = Some uid -> store w !! uid = Some rawDoc ->
  exists st' w' doc',
    handleLevelChange newLevel st w = (Ok st', w') /\
    userDoc st' = Some doc' /\ store w' !! uid = Some doc' /\
    level doc' = newLevel /\
    dailyQuestions doc' = dailyQuestions rawDoc /\
    questions doc' = map migrateQuestion (questions rawDoc) /\
    (Forall current (questions rawDoc) -> questions doc' = questions rawDoc).
Proof.
  intros Hu Hs. unfold handleLevelChange. rewrite Hu. run.
  rewrite (updateUserDocument_run _ _ _ _ Hs).
  rewrite getUserDocument_run.
  eexists _, _, _. split; [reflexivity|]. simpl.
  split; [done|]. split; [apply afterLoad_store|].
  unfold loaded. rewrite written_store. simpl.
  split; [done|]. split; [done|]. split; [done|].
  apply map_migrate_current.
Qed.

End NewQuestion.

(** ** A first session *)

Section FirstSession.

Variable clock : nat -> string.
Variable dateNow : nat -> N.
Variable getTime : string -> option Z.
Variable generateContent : nat -> string -> option string.
Variable validationService : nat -> string -> string -> option ValidationResponse.

(** X23: the first session of a user.  Starting without a stored document,
    sign-in, one generated question and one accepted answer to it, all on
    one date, leave a stored document with exactly that question, answered,
    holding exactly that answer with the verdict of the service, and a
    ledger whose record of the date lists the question once as asked and
    once as answered. *)
Theorem first_session (uid answerText text : string) (w : World)
    (r : ValidationResponse) (date : string) :
  store w !! uid = None ->
  generateContent (tick w) (GenerateQuestion.prompt "a0" "") = Some text ->
  blank text = false ->
  answerText <> "" ->
  validationService (4 + tick w) (trim text) answerText = Some r ->
  beforeT (clock (3 + tick w)) = date ->
  beforeT (clock (6 + tick w)) = date ->
  exists st0 w0 s1 w1 st2 w2 stored q a,
    signedIn uid w = (Ok st0, w0) /\
    handleNewQuestion clock dateNow getTime generateContent (idle st0) w0
      = (Ok s1, w1) /\
    handleAnswer clock validationService (pretty (dateNow (1 + tick w)))
      answerText (base s1) w1 = (Ok st2, w2) /\
    userDoc st2 = Some stored /\ store w2 !! uid = Some stored /\
    questions stored = [q] /\
    Question.id q = pretty (dateNow (1 + tick w)) /\
    Question.question q = trim text /\
    Question.status q = StatusAnswered /\
    Question.answers q = Some (Arr [a]) /\
    Answer.answer a = answerText /\
    Answer.isCorrect a = correct r /\
    ledgerOf stored !! date
    = Some {| askedQuestionIds := [pretty (dateNow (1 + tick w))];
              answeredQuestionIds := [pretty (dateNow (1 + tick w))] |}.
Proof.
  intros Hnone Hgen Hblank Hanswer Hvalid Hdate1 Hdate2.
  assert (Htext : text <> "") by (intros ->; done).
  assert (Htrim : trim text <> "").
  { intros H. apply trim_blank in H. congruence. }
  (* sign-in *)
  unfold signedIn. run. rewrite getUserDocument_run.
  assert (Hloaded : loaded uid w = initialDoc) by (unfold loaded; by rewrite Hnone).
  rewrite Hloaded.
  set (w0 := afterLoad uid w).
  assert (Hs0 : store w0 !! uid = Some initialDoc).
  { unfold w0. rewrite afterLoad_store. by rewrite Hloaded. }
  assert (Ht0 : tick w0 = tick w) by apply afterLoad_tick.
  set (st0 := {| user := Some uid; userDoc := Some initialDoc;
                 validatingQuestionId := None |}).
  (* the new question *)
  assert (Hgen0 : generateContent (tick w0)
                    (GenerateQuestion.prompt (level initialDoc) "") = Some text)
    by (by rewrite Ht0).
  destruct (handleNewQuestion_run clock dateNow getTime generateContent
              uid (idle st0) w0 initialDoc "" text
              eq_refl eq_refl Hs0 (Forall_nil_2 _) eq_refl eq_refl
              ltac:(discriminate) Hgen0 Htext)
    as (w1 & Hrun1 & Hs1 & Ht1).
  rewrite Ht0 in Hrun1, Hs1, Ht1.
  set (newId := pretty (dateNow (S (tick w)))) in *.
  set (newQuestion := askedNow newId (trim text) (clock (S (S (tick w))))) in *.
  change (beforeT (clock (S (S (S (tick w)))))) with (beforeT (clock (3 + tick w)))
    in Hrun1, Hs1.
  rewrite Hdate1 in Hrun1, Hs1.
  match type of Hs1 with _ = Some ?d => set (doc1 := d) in * end.
  (* the answer *)
  assert (Hfind : find (Question.idIs newId) (questions doc1) = Some newQuestion).
  { simpl. unfold Question.idIs. simpl. by rewrite String.eqb_refl. }
  assert (Hcur1 : Forall current (questions doc1)) by (by repeat constructor).
  assert (Hv1 : validationService (tick w1) (Question.question newQuestion) answerText
                = Some r) by (by rewrite Ht1).
  destruct (handleAnswer_first_run clock validationService uid newId answerText
              (base (withDoc doc1 (idle st0))) w1 doc1 newQuestion r)
    as (w2 & doc2 & Hrun2 & Hs2 & Hledger); try done.
  destruct (handleAnswer_accepted clock validationService uid newId answerText
              (base (withDoc doc1 (idle st0))) w1 doc1 newQuestion [] r)
    as (w2' & doc2' & Hrun2' & _ & Hqs & _); try done.
  rewrite Hrun2 in Hrun2'. injection Hrun2' as <- <-.
  eexists st0, w0, _, w1, _, w2, doc2, _, _.
  split; [done|]. split; [exact Hrun1|]. split; [exact Hrun2|].
  split; [done|]. split; [exact Hs2|].
  split. { rewrite Hqs. simpl. unfold Question.idIs. simpl.
           rewrite String.eqb_refl. reflexivity. }
  split; [done|]. split; [done|]. split; [done|]. split; [done|].
  split; [done|]. split; [done|].
  rewrite Hledger, Ht1.
  change (beforeT (clock (S (S (S (S (S (S (tick w)))))))))
    with (beforeT (clock (6 + tick w))).
  rewrite Hdate2, lookup_insert_eq.
  unfold recordOf, ledgerOf. simpl. rewrite lookup_insert_eq. simpl.
  unfold recordOf, ledgerOf. simpl. rewrite lookup_empty. simpl.
  unfold pushNew. simpl. done.
Qed.

End FirstSession.

(** ** A blank reply is not cached *)

Section BlankReply.

Variable generateContent : nat -> string -> option string.

(** X16: a reply of white space only passes the handler's test for text,
    is trimmed to the empty string and stored as such; the cache test of
    the handler reads that as no context, so the next
    [handleGenerateContext] for the question asks the service again. *)
Theorem handleGenerateContext_blank_reply (uid questionId : string)
    (s : AppFlags) (w : World) (doc : UserDocument) (q : Question.t)
    (text : string) :
  user (base s) = Some uid -> userDoc (base s) = Some doc ->
  store w !! uid = Some doc -> Forall current (questions doc) ->
  truthy (generatingContextId s) = None ->
  find (Question.idIs questionId) (questions doc) = Some q ->
  truthy (Question.contextConversation q) = None ->
  Question.question q <> "" -> level doc <> "" ->
  generateContent (tick w)
    (GenerateContext.prompt (Question.question q) (level doc)) = Some text ->
  text <> "" -> blank text = true ->
  exists s' w' doc' q',
    handleGenerateContext generateContent questionId s w = (Ok s', w') /\
    userDoc (base s') = Some doc' /\ store w' !! uid = Some doc' /\
    find (Question.idIs questionId) (questions doc') = Some q' /\
    Question.contextConversation q' = Some "" /\
    tick w' = S (tick w) /\
    exists s'' w'',
      handleGenerateContext generateContent questionId s' w' = (Ok s'', w'') /\
      tick w'' = S (tick w').
Proof.
  intros Hu Hd Hs Hc Hv Hf Hnone Hq Hl Hg Ht Hb.
  destruct (handleGenerateContext_run generateContent uid questionId s w doc q text
              Hu Hd Hs Hc Hv Hf Hnone Hq Hl Hg Ht) as (w' & Hrun & Hst & Htick & Hcur).
  apply trim_blank in Hb as Htrim. rewrite Htrim in Hrun, Hst, Hcur.
  match type of Hst with _ = Some ?d => set (doc' := d) in * end.
  assert (Hq' : Question.idIs questionId q = true).
  { apply find_some in Hf. apply Hf. }
  assert (Hf' : find (Question.idIs questionId) (questions doc')
                = Some (withContext "" q)).
  { simpl.
    rewrite (find_map_same_id questionId _ _ q) by
      (first [exact Hf | intros p; by destruct (Question.idIs questionId p)]).
    by rewrite Hq'. }
  eexists _, w', doc', _. split; [exact Hrun|]. simpl.
  split; [done|]. split; [exact Hst|]. split; [exact Hf'|].
  split; [done|]. split; [exact Htick|].
  unfold handleGenerateContext. simpl. rewrite Hu.
  unfold tryCatch, handleGenerateContext_try. run.
  simpl in Hf'. rewrite Hf'. simpl.
  destruct (generateContext_ticks generateContent (Question.question q) (level doc) w')
    as [res Hres].
  rewrite Hres. destruct res as [conversation|e]; simpl.
  - rewrite updateQuestion_run, getUserDocument_run.
    eexists _, _. split; [reflexivity|].
    by rewrite afterLoad_tick, written_tick, afterLoad_tick.
  - by eexists _, _.
Qed.

End BlankReply.

(** ** The further properties at concrete worlds *)

Lemma markQuestion_commute_witness :
  exists w1 w2 v1 v2,
    markQuestionAsked noon "u1" "1700000000004" (worldWith "u1" askedDoc) = (Ok tt, w1) /\
    markQuestionAnswered noon "u1" "1700000000004" w1 = (Ok tt, w2) /\
    markQuestionAnswered noon "u1" "1700000000004" (worldWith "u1" askedDoc) = (Ok tt, v1) /\
    markQuestionAsked noon "u1" "1700000000004" v1 = (Ok tt, v2) /\
    store w2 = store v2.
Proof.
  apply (markQuestion_commute noon "u1" "1700000000004" (worldWith "u1" askedDoc)).
  reflexivity.
Defined.

Lemma handleAnswer_failed_validation_witness :
  handleAnswer noon silentValidation "1700000000003" "Ik ga naar huis"
    askedState (worldWith "u1" askedDoc)
  = (Ok askedState,
     {| store := {[ "u1" := askedDoc ]};
        trace := [EvValidate "Waar ga je naartoe?" "Ik ga naar huis"];
        tick := 1 |}).
Proof.
  apply (handleAnswer_failed_validation noon silentValidation "u1" "1700000000003"
           "Ik ga naar huis" askedState (worldWith "u1" askedDoc) askedDoc
           askedQuestion);
    [reflexivity | reflexivity | reflexivity | reflexivity |].
  right. right. reflexivity.
Defined.

Lemma handleAnswer_guarded_witness :
  exists st',
    handleAnswer noon lenientService "1700000000003" "Ik ga naar huis"
      signedOut (worldWith "u1" askedDoc) = (Ok st', worldWith "u1" askedDoc) /\
    user st' = None /\ userDoc st' = None.
Proof.
  apply (handleAnswer_guarded noon lenientService "1700000000003" "Ik ga naar huis"
           signedOut (worldWith "u1" askedDoc)).
  left. reflexivity.
Defined.

Lemma handleAnswer_ledger_witness :
  exists st' w' doc',
    handleAnswer noon lenientService "1700000000003" "Ik ga naar huis"
      askedState (worldWith "u1" askedDoc) = (Ok st', w') /\
    store w' !! "u1" = Some doc' /\
    "1700000000003" ∈ answeredQuestionIds (recordOf doc' "2024-05-02").
Proof.
  destruct (handleAnswer_ledger noon lenientService "u1" "1700000000003"
              "Ik ga naar huis" askedState (worldWith "u1" askedDoc) askedDoc
              askedQuestion []
              {| correct := true; mistakes := ""; explanation := "Prima." |})
    as (st' & w' & doc' & Hrun & _ & Hst & _ & Hfirst);
    [reflexivity | reflexivity | reflexivity | repeat constructor | reflexivity
    | reflexivity | reflexivity | discriminate | discriminate | reflexivity |].
  exists st', w', doc'. split; [exact Hrun|]. split; [exact Hst|].
  apply (Hfirst eq_refl).
Defined.

Lemma blank_answer_not_submitted_witness :
  handleSubmit askedQuestion spacesOnly = None /\
  (forall st w,
     submitOnCard noon lenientService askedQuestion spacesOnly st w = (Ok st, w)) /\
  "Ik ga naar huis" = trim paddedAnswer /\
  trim "Ik ga naar huis" = "Ik ga naar huis".
Proof.
  destruct (proj1 (blank_answer_not_submitted noon lenientService
                     askedQuestion spacesOnly) eq_refl) as [Hnone Hcard].
  destruct (proj2 (blank_answer_not_submitted noon lenientService
                     askedQuestion paddedAnswer)
                  "1700000000003" "Ik ga naar huis" eq_refl)
    as (_ & Htext & _ & Hagain).
  split; [exact Hnone|]. split; [exact Hcard|]. split; [exact Htext | exact Hagain].
Defined.

Lemma text_area_after_submit_witness :
  exists st' w' doc' q',
    submitOnCard noon lenientService askedQuestion paddedAnswer
      askedState (worldWith "u1" askedDoc) = (Ok st', w') /\
    userDoc st' = Some doc' /\
    find (Question.idIs "1700000000003") (questions doc') = Some q' /\
    clearAnswerEffect false q' paddedAnswer = "".
Proof.
  destruct (text_area_after_submit noon lenientService "u1" paddedAnswer
              askedState (worldWith "u1" askedDoc) askedDoc askedQuestion []
              {| correct := true; mistakes := ""; explanation := "Prima." |})
    as (st' & w' & doc' & q' & Hrun & Hdoc & Hfind & Hclear & _);
    [reflexivity | reflexivity | reflexivity | repeat constructor | |
     reflexivity | | reflexivity | reflexivity | discriminate | reflexivity
    | reflexivity |].
  - apply NoDup_cons. split; [|apply NoDup_singleton].
    intros H%list_elem_of_singleton. discriminate.
  - apply list_elem_of_further, list_elem_of_here.
  - exists st', w', doc', q'. by repeat split.
Defined.

Lemma conversationHistory_chronological_witness :
  exists sorted lines,
    sorted ≡ₚ List.filter isAnswered [askedQuestion; lockedQuestion] /\
    GenerateQuestion.chronological zeroTime sorted /\
    Forall2 (fun q line =>
               exists a, GenerateQuestion.lastAnswer q = Ok a /\
                         line = historyLine q a) sorted lines /\
    GenerateQuestion.conversationHistory zeroTime [askedQuestion; lockedQuestion]
    = Ok (join (newline +:+ newline) lines).
Proof.
  apply (GenerateQuestionMore.conversationHistory_chronological zeroTime
           [askedQuestion; lockedQuestion]).
  constructor; [intros H; discriminate|].
  constructor; [|constructor].
  intros _. exists 0%Z. reflexivity.
Defined.

Lemma ledger_key_is_date_witness :
  getTodayDate noon emptyWorld = (Ok "2024-05-02", ticked emptyWorld) /\
  exists w1 doc1 record,
    markQuestionAsked noon "u1" "1700000000004" emptyWorld = (Ok tt, w1) /\
    store w1 !! "u1" = Some doc1 /\
    ledgerOf doc1 !! "2024-05-02" = Some record /\
    "1700000000004" ∈ askedQuestionIds record.
Proof.
  apply (ledger_key_is_date noon "u1" "1700000000004" emptyWorld
           "2024-05-02" "12:00:00.000Z"); [reflexivity|].
  simpl. intros H.
  repeat (destruct H as [H|H]; [discriminate|]). exact H.
Defined.

Lemma handleGenerateContext_cached_witness :
  exists s',
    handleGenerateContext replyService "1700000000003" askedFlags
      (worldWith "u1" askedDoc) = (Ok s', worldWith "u1" askedDoc) /\
    base s' = askedState.
Proof.
  apply (handleGenerateContext_cached replyService "u1" "1700000000003" askedFlags
           (worldWith "u1" askedDoc) askedDoc askedQuestion "A: Hoi! B: Hallo!");
    [reflexivity | reflexivity | reflexivity | reflexivity | discriminate].
Defined.

Lemma handleGenerateContext_stores_witness :
  exists s' w' doc',
    handleGenerateContext paddedService "1700000000002" askedFlags
      (worldWith "u1" askedDoc) = (Ok s', w') /\
    store w' !! "u1" = Some doc' /\
    questions doc' = [withContext "Wat doe je vandaag?" lockedQuestion; askedQuestion] /\
    handleGenerateContext paddedService "1700000000002" s' w' = (Ok s', w').
Proof.
  destruct (handleGenerateContext_stores paddedService "u1" "1700000000002"
              askedFlags (worldWith "u1" askedDoc) askedDoc lockedQuestion
              paddedReply)
    as (s' & w' & doc' & Hrun & _ & Hst & _ & Hqs & _ & _ & Hagain);
    [reflexivity | reflexivity | reflexivity | repeat constructor | reflexivity
    | reflexivity | reflexivity | discriminate | discriminate | reflexivity
    | discriminate |].
  exists s', w', doc'. split; [exact Hrun|]. split; [exact Hst|].
  split; [exact Hqs|]. apply Hagain. reflexivity.
Defined.

Lemma handleGenerateContext_blank_reply_witness :
  exists s' w' doc' q',
    handleGenerateContext blankService "1700000000002" askedFlags
      (worldWith "u1" askedDoc) = (Ok s', w') /\
    store w' !! "u1" = Some doc' /\
    find (Question.idIs "1700000000002") (questions doc') = Some q' /\
    Question.contextConversation q' = Some "" /\
    exists s'' w'',
      handleGenerateContext blankService "1700000000002" s' w' = (Ok s'', w'') /\
      tick w'' = S (tick w').
Proof.
  destruct (handleGenerateContext_blank_reply blankService "u1" "1700000000002"
              askedFlags (worldWith "u1" askedDoc) askedDoc lockedQuestion "  ")
    as (s' & w' & doc' & q' & Hrun & _ & Hst & Hfind & Hctx & _ & Hagain);
    [reflexivity | reflexivity | reflexivity | repeat constructor | reflexivity
    | reflexivity | reflexivity | discriminate | discriminate | reflexivity
    | discriminate | reflexivity |].
  exists s', w', doc', q'. by repeat split.
Defined.

Lemma handleExplain_cached_witness :
  exists s',
    handleExplain replyService "1700000000002" explainedFlags
      (worldWith "u1" explainedDoc) = (Ok s', worldWith "u1" explainedDoc) /\
    base s' = base explainedFlags.
Proof.
  apply (handleExplain_cached replyService "u1" "1700000000002" explainedFlags
           (worldWith "u1" explainedDoc) explainedDoc
           (withExplanation "Hoe voel je je?" lockedQuestion) "Hoe voel je je?");
    [reflexivity | reflexivity | reflexivity | reflexivity | discriminate].
Defined.

Lemma handleExplain_stores_witness :
  exists s' w' doc',
    handleExplain paddedService "1700000000003" askedFlags
      (worldWith "u1" askedDoc) = (Ok s', w') /\
    store w' !! "u1" = Some doc' /\
    questions doc' = [lockedQuestion; withExplanation "Wat doe je vandaag?" askedQuestion] /\
    handleExplain paddedService "1700000000003" s' w' = (Ok s', w').
Proof.
  destruct (handleExplain_stores paddedService "u1" "1700000000003"
              askedFlags (worldWith "u1" askedDoc) askedDoc askedQuestion
              paddedReply)
    as (s' & w' & doc' & Hrun & _ & Hst & _ & Hqs & _ & _ & Hagain);
    [reflexivity | reflexivity | reflexivity | repeat constructor | reflexivity
    | reflexivity | reflexivity | discriminate | discriminate | reflexivity
    | discriminate |].
  exists s', w', doc'. split; [exact Hrun|]. split; [exact Hst|].
  split; [exact Hqs|]. apply Hagain. reflexivity.
Defined.



Lemma handleNewQuestion_blocked_witness :
  exists s' w',
    handleNewQuestion noon epoch zeroTime replyService blockedFlags
      (worldWith "u1" blockedDoc) = (Ok s', w') /\
    store w' = store (worldWith "u1" blockedDoc) /\
    trace w' = [] /\
    userDoc (base s') = Some blockedDoc.
Proof.
  apply (handleNewQuestion_blocked noon epoch zeroTime replyService "u1"
           blockedFlags (worldWith "u1" blockedDoc) blockedDoc
           (migrateQuestion legacyEmptyAnswer));
    [reflexivity | reflexivity | | reflexivity | reflexivity].
  apply list_elem_of_further, list_elem_of_here.
Defined.

Lemma handleLevelChange_level_only_witness :
  exists st' w' doc',
    handleLevelChange "a1-early" lockedState (worldWith "u1" mixedDoc) = (Ok st', w') /\
    store w' !! "u1" = Some doc' /\
    level doc' = "a1-early" /\
    questions doc' = questions blockedDoc.
Proof.
  destruct (handleLevelChange_level_only "u1" "a1-early" lockedState
              (worldWith "u1" mixedDoc) mixedDoc)
    as (st' & w' & doc' & Hrun & _ & Hst & Hlevel & _ & Hqs & _);
    [reflexivity | reflexivity |].
  exists st', w', doc'. by repeat split.
Defined.

Lemma first_session_witness :
  exists st0 w0 s1 w1 st2 w2 stored q a,
    signedIn "u1" emptyWorld = (Ok st0, w0) /\
    handleNewQuestion noon epoch zeroTime paddedService (idle st0) w0 = (Ok s1, w1) /\
    handleAnswer noon lenientService (pretty (epoch 1)) "Ik werk"
      (base s1) w1 = (Ok st2, w2) /\
    store w2 !! "u1" = Some stored /\
    questions stored = [q] /\
    Question.status q = StatusAnswered /\
    Question.answers q = Some (Arr [a]) /\
    Answer.isCorrect a = true /\
    ledgerOf stored !! "2024-05-02"
    = Some {| askedQuestionIds := [pretty (epoch 1)];
              answeredQuestionIds := [pretty (epoch 1)] |}.
Proof.
  destruct (first_session noon epoch zeroTime paddedService lenientService
              "u1" "Ik werk" paddedReply emptyWorld
              {| correct := true; mistakes := ""; explanation := "Prima." |}
              "2024-05-02")
    as (st0 & w0 & s1 & w1 & st2 & w2 & stored & q & a & H0 & H1 & H2 & _ & Hst
        & Hqs & _ & _ & Hstatus & Hanswers & _ & Hcorrect & Hledger);
    [reflexivity | reflexivity | reflexivity | discriminate | reflexivity
    | reflexivity | reflexivity |].
  exists st0, w0, s1, w1, st2, w2, stored, q, a. by repeat split.
Defined.

(** ** The service worker *)

Module ServiceWorkerFacts.
Import ServiceWorker.

Section Facts.

Variable network : string -> option Response.
Variable indexUrl : string.

Lemma openAndPut_elem name url response caches n cache :
  (n, cache) ∈ openAndPut name url response caches ->
  (n, cache) ∈ caches \/
  n = name /\
  (cache = {[ url := response ]} \/
   exists old, (name, old) ∈ caches /\ cache = <[url := response]> old).
Proof.
  induction caches as [|[m c] rest IH]; simpl.
  - intros H%list_elem_of_singleton. injection H as H1 H2. subst n cache.
    right. split; [done|]. by left.
  - destruct (String.eqb_spec m name) as [->|Hne].
    + intros [H|H]%elem_of_cons.
      * injection H as H1 H2. subst n cache. right. split; [done|]. right.
        exists c. split; [apply list_elem_of_here | done].
      * left. by apply list_elem_of_further.
    + intros [H|H]%elem_of_cons.
      * injection H as H1 H2. subst n cache. left. apply list_elem_of_here.
      * destruct (IH H) as [?|(-> & [->|(old & Hold & ->)])].
        -- left. by apply list_elem_of_further.
        -- right. split; [done|]. by left.
        -- right. split; [done|]. right. exists old.
           split; [by apply list_elem_of_further | done].
Qed.

Lemma stored_after_put (P : string -> Response -> Prop) name url response caches :
  (forall n cache u r, (n, cache) ∈ caches -> cache !! u = Some r -> P u r) ->
  P url response ->
  forall n cache u r,
    (n, cache) ∈ openAndPut name url response caches ->
    cache !! u = Some r -> P u r.
Proof.
  intros Hold Hnew n cache u r Hin Hu.
  destruct (openAndPut_elem _ _ _ _ _ _ Hin) as [Hc|(-> & [->|(old & Ho & ->)])].
  - by apply (Hold n cache).
  - apply lookup_singleton_Some in Hu as [<- <-]. exact Hnew.
  - apply lookup_insert_Some in Hu as [[<- <-]|[_ Hu]]; [exact Hnew|].
    by apply (Hold name old).
Qed.

(** X24: the worker keeps away from the API.  A request that is not a GET,
    or whose URL contains [/api/], is left to the browser and the caches
    stay as they are; and no fetch event ever stores a response under a URL
    that contains [/api/]. *)
Theorem onFetch_skips_api (request : Request) (caches : CacheStorage) :
  (method request <> "GET" \/ includesText "/api/" (url request) = true ->
   onFetch network indexUrl request caches = (NotHandled, caches)) /\
  (noApiStored caches ->
   noApiStored (snd (onFetch network indexUrl request caches))).
Proof.
  split.
  - intros Hskip. unfold onFetch.
    destruct (String.eqb_spec (method request) "GET") as [Hget|_]; simpl; [|done].
    destruct Hskip as [Hne | Hapi]; [done | by rewrite Hapi].
  - intros Hinv. unfold onFetch.
    destruct (negb (String.eqb (method request) "GET")); [done|].
    destruct (includesText "/api/" (url request)) eqn:Hapi; [done|].
    destruct (cachesMatch caches (url request)); [done|].
    destruct (network (url request)) as [response|]; [|done].
    destruct (negb (Nat.eqb (status response) 200)
              || negb (String.eqb (type response) "basic")); [done|].
    simpl. intros n cache u r.
    apply (stored_after_put (fun u _ => includesText "/api/" u = false)); [|done].
    intros n' cache' u' r'. apply Hinv.
Qed.



(** X26: the fetch handler stores good responses only.  If every stored
    response is a basic one with status 200, so is every stored response
    after a fetch event; a response of another status or type is passed on
    to the page and the caches stay as they are. *)
Theorem onFetch_stores_good_only (request : Request) (caches : CacheStorage) :
  (onlyGoodStored caches ->
   onlyGoodStored (snd (onFetch network indexUrl request caches))) /\
  (forall response,
     method request = "GET" ->
     includesText "/api/" (url request) = false ->
     cachesMatch caches (url request) = None ->
     network (url request) = Some response ->
     status response <> 200 \/ type response <> "basic" ->
     onFetch network indexUrl request caches = (RespondWith (Some response), caches)).
Proof.
  split.
  - intros Hinv. unfold onFetch.
    destruct (negb (String.eqb (method request) "GET")); [done|].
    destruct (includesText "/api/" (url request)); [done|].
    destruct (cachesMatch caches (url request)); [done|].
    destruct (network (url request)) as [response|]; [|done].
    destruct (Nat.eqb_spec (status response) 200) as [Hs|_]; simpl; [|done].
    destruct (String.eqb_spec (type response) "basic") as [Ht|_]; simpl; [|done].
    intros n cache u r.
    apply (stored_after_put (fun _ r => status r = 200 /\ type r = "basic")); [|done].
    intros n' cache' u' r'. apply Hinv.
  - intros response Hget Hapi Hmiss Hnet Hbad. unfold onFetch.
    rewrite Hget, Hapi, Hmiss, Hnet. simpl.
    destruct (Nat.eqb_spec (status response) 200) as [Hs|_]; simpl; [|done].
    destruct (String.eqb_spec (type response) "basic") as [Ht|_]; simpl; [|done].
    by destruct Hbad.
Qed.

(** X27: activation leaves the current cache and nothing else: every cache
    that remains is named [CACHE_NAME], and a cache of that name remains,
    with its content, exactly when it was there. *)
Theorem onActivate_keeps_current (caches : CacheStorage) :
  Forall (fun entry => fst entry = CACHE_NAME) (onActivate caches) /\
  forall cache,
    (CACHE_NAME, cache) ∈ onActivate caches <-> (CACHE_NAME, cache) ∈ caches.
Proof.
  unfold onActivate. split.
  - apply Forall_forall. intros [n c] Hin.
    apply list_elem_of_In, filter_In in Hin as [_ Hn]. by apply String.eqb_eq in Hn.
  - intros cache. rewrite !list_elem_of_In, filter_In. cbn [fst].
    rewrite String.eqb_refl. tauto.
Qed.

End Facts.

End ServiceWorkerFacts.

(** ** The service worker at concrete caches *)

Lemma installedCaches_stored (P : string -> ServiceWorker.Response -> Prop) :
  P "/index.html" pageResponse ->
  forall name cache url response,
    (name, cache) ∈ installedCaches -> cache !! url = Some response ->
    P url response.
Proof.
  intros HP name cache url response Hin Hurl.
  apply list_elem_of_singleton in Hin. injection Hin as Hname Hcache. subst name cache.
  apply lookup_singleton_Some in Hurl as [<- <-]. exact HP.
Qed.

Lemma onFetch_skips_api_witness :
  ServiceWorker.onFetch online "/index.html" apiRequest installedCaches
  = (ServiceWorker.NotHandled, installedCaches) /\
  ServiceWorker.noApiStored
    (snd (ServiceWorker.onFetch online "/index.html" styleRequest installedCaches)).
Proof.
  split.
  - apply (proj1 (ServiceWorkerFacts.onFetch_skips_api
                    online "/index.html" apiRequest installedCaches)).
    right. reflexivity.
  - apply (proj2 (ServiceWorkerFacts.onFetch_skips_api
                    online "/index.html" styleRequest installedCaches)).
    unfold ServiceWorker.noApiStored.
    apply (installedCaches_stored
             (fun url _ => ServiceWorker.includesText "/api/" url = false)).
    reflexivity.
Defined.


Lemma onFetch_stores_good_only_witness :
  ServiceWorker.onlyGoodStored
    (snd (ServiceWorker.onFetch online "/index.html" styleRequest installedCaches)) /\
  ServiceWorker.onFetch notFound "/index.html" styleRequest installedCaches
  = (ServiceWorker.RespondWith (Some missingResponse), installedCaches).
Proof.
  split.
  - apply (proj1 (ServiceWorkerFacts.onFetch_stores_good_only
                    online "/index.html" styleRequest installedCaches)).
    unfold ServiceWorker.onlyGoodStored.
    apply (installedCaches_stored
             (fun _ response => ServiceWorker.status response = 200
                                /\ ServiceWorker.type response = "basic")).
    split; reflexivity.
  - apply (proj2 (ServiceWorkerFacts.onFetch_stores_good_only
                    notFound "/index.html" styleRequest installedCaches));
      try reflexivity.
    left. simpl. lia.
Defined.
